(** * Lumi: safety classifier, agent executors, orchestrator and onboarding screens

    A shallow embedding of the code of the Lumi agents:

    - [server/agents/safety/server.py]: [get_emergency_context],
      [analyze_safety], the agent built by [ADKManager._initialize_runner],
      [ADKManager.process_message], [SafetyExecutor.execute] and
      [SafetyExecutor.cancel];
    - [server/agents/conversation/server.py]: [ConversationExecutor.execute],
      [ConversationExecutor.cancel] and
      [ConversationExecutor.generate_llm_response];
    - [server/agents/orchestrator/agent.py]: [call_a2a_agent],
      [check_safety], [consult_memory], [generate_companion_response] and
      [save_new_memory];
    - [server/agents/agent.py]: the component helpers and the five screens
      of the onboarding flow.

    Python text is modelled as the [string] of its UTF-8 bytes.  Case
    folding is the ASCII one, which is what [str.lower] does on the ASCII
    letters the lexicon is made of; white space is the set of characters
    [str.strip] removes, each in its UTF-8 form.
    Calls into the a2a SDK, the ADK runner and session service, the HTTP
    client, the network client and [json.loads] are parameters of the model
    (the records [Sdk], [Adk] and [Runtime] and the type [Network]); log
    lines are left out. *)

From Stdlib Require Import String Ascii List Bool Arith NArith Lia.
Import ListNotations.

Set Warnings "-register-all".

Open Scope list_scope.
Open Scope string_scope.

(** ** Python strings *)

Module PyStr.

Definition is_upper (c : ascii) : bool :=
  let n := nat_of_ascii c in ((65 <=? n) && (n <=? 90))%nat.

Definition is_lower (c : ascii) : bool :=
  let n := nat_of_ascii c in ((97 <=? n) && (n <=? 122))%nat.

Definition is_alpha (c : ascii) : bool := is_upper c || is_lower c.

Definition lower_char (c : ascii) : ascii :=
  if is_upper c then ascii_of_nat (nat_of_ascii c + 32) else c.

(** [s.lower()] *)
Fixpoint lower (s : string) : string :=
  match s with
  | EmptyString => EmptyString
  | String c s' => String (lower_char c) (lower s')
  end.

(** [w in t] on two strings: [w] occurs in [t] as a contiguous run. *)
Fixpoint str_in (w t : string) : bool :=
  prefix w t ||
  match t with
  | EmptyString => false
  | String _ t' => str_in w t'
  end.

(** [w] occurs in [t]: [t] is some text, then [w], then some text. *)
Definition occurs_in (w t : string) : Prop :=
  exists pre post, t = pre ++ w ++ post.

(** The last character of a string, when it has one. *)
Fixpoint last_char (s : string) : option ascii :=
  match s with
  | EmptyString => None
  | String c EmptyString => Some c
  | String _ s' => last_char s'
  end.

Definition first_char (s : string) : option ascii :=
  match s with
  | EmptyString => None
  | String c _ => Some c
  end.

Definition opt_alpha (o : option ascii) : bool :=
  match o with
  | Some c => is_alpha c
  | None => false
  end.

(** White space as [str.isspace] has it.  One byte: U+0009 to U+000D,
    U+001C to U+001F and the space. *)
Definition is_space (c : ascii) : bool :=
  let n := nat_of_ascii c in
  (((9 <=? n) && (n <=? 13)) || ((28 <=? n) && (n <=? 31)) || (n =? 32))%nat.

(** Two bytes: U+0085 and U+00A0. *)
Definition is_space2 (a b : ascii) : bool :=
  let x := nat_of_ascii a in
  let y := nat_of_ascii b in
  ((x =? 194) && ((y =? 133) || (y =? 160)))%nat.

(** Three bytes: U+1680, U+2000 to U+200A, U+2028, U+2029, U+202F, U+205F
    and U+3000. *)
Definition is_space3 (a b c : ascii) : bool :=
  let x := nat_of_ascii a in
  let y := nat_of_ascii b in
  let z := nat_of_ascii c in
  (((x =? 225) && (y =? 154) && (z =? 128))
   || ((x =? 226) && (y =? 128)
       && (((128 <=? z) && (z <=? 138)) || (z =? 168) || (z =? 169) || (z =? 175)))
   || ((x =? 226) && (y =? 129) && (z =? 159))
   || ((x =? 227) && (y =? 128) && (z =? 128)))%nat.

(** [s.lstrip()] *)
Fixpoint lstrip (s : string) : string :=
  match s with
  | EmptyString => EmptyString
  | String a s1 =>
      if is_space a then lstrip s1
      else
        match s1 with
        | EmptyString => s
        | String b s2 =>
            if is_space2 a b then lstrip s2
            else
              match s2 with
              | EmptyString => s
              | String c s3 => if is_space3 a b c then lstrip s3 else s
              end
        end
  end.

Fixpoint rev_onto (s acc : string) : string :=
  match s with
  | EmptyString => acc
  | String c s' => rev_onto s' (String c acc)
  end.

Definition reversed (s : string) : string := rev_onto s EmptyString.

(** [lstrip] on a text read backwards: each character comes with its last
    byte first. *)
Fixpoint lstrip_reversed (s : string) : string :=
  match s with
  | EmptyString => EmptyString
  | String c s1 =>
      if is_space c then lstrip_reversed s1
      else
        match s1 with
        | EmptyString => s
        | String b s2 =>
            if is_space2 b c then lstrip_reversed s2
            else
              match s2 with
              | EmptyString => s
              | String a s3 => if is_space3 a b c then lstrip_reversed s3 else s
              end
        end
  end.

(** [s.rstrip()] *)
Definition rstrip (s : string) : string :=
  reversed (lstrip_reversed (reversed s)).

(** [s.strip()] *)
Definition strip (s : string) : string := rstrip (lstrip s).

Definition newline : string := String (ascii_of_nat 10) EmptyString.

(** Truth value of a string: the empty string is false. *)
Definition truthy (s : string) : bool :=
  match s with
  | EmptyString => false
  | _ => true
  end.

End PyStr.

(** ** Exceptions and results *)

Module Py.

(** Error objects of the a2a SDK carried by [ServerError]. *)
Inductive a2a_error : Type :=
| UnsupportedOperationError
| InternalError.

(** The exception classes that occur in the modelled code.  The last three
    derive from [BaseException] only, so [except Exception] lets them pass. *)
Inductive exc_class : Type :=
| JSONDecodeError
| RequestsJSONDecodeError
| AttributeError
| TypeError
| ValueError
| RuntimeError
| RecursionError
| HTTPError
| ConnectionError
| ServerError (error : a2a_error)
| CancelledError
| KeyboardInterrupt
| SystemExit.

Record exn : Type := mkExn {
  exn_class : exc_class;
  exn_str : string
}.

(** [isinstance(e, Exception)] *)
Definition is_Exception (e : exn) : bool :=
  match exn_class e with
  | CancelledError | KeyboardInterrupt | SystemExit => false
  | _ => true
  end.

(** [isinstance(e, json.JSONDecodeError)]; the error [requests] raises from
    [Response.json] derives from it. *)
Definition is_JSONDecodeError (e : exn) : bool :=
  match exn_class e with
  | JSONDecodeError | RequestsJSONDecodeError => true
  | _ => false
  end.

Inductive result (A : Type) : Type :=
| Ok (a : A)
| Raise (e : exn).

Arguments Ok {A} a.
Arguments Raise {A} e.

Definition bind {A B : Type} (r : result A) (k : A -> result B) : result B :=
  match r with
  | Ok a => k a
  | Raise e => Raise e
  end.

(** [try: body  except Exception as e: handler e] *)
Definition try_except {A : Type} (body : result A) (handler : exn -> result A)
  : result A :=
  match body with
  | Ok a => Ok a
  | Raise e => if is_Exception e then handler e else Raise e
  end.

Definition returns {A : Type} (r : result A) : bool :=
  match r with
  | Ok _ => true
  | Raise _ => false
  end.

End Py.

Declare Scope py_scope.
Delimit Scope py_scope with py.
Notation "x <- c ;; k" := (Py.bind c (fun x => k))
  (at level 61, c at next level, right associativity) : py_scope.

(** ** JSON values, [json.dumps] and a decoder *)

Module Json.

Import PyStr Py.

(** A decoded value; an object keeps its members in insertion order, a
    number keeps its lexeme. *)
Inductive json : Type :=
| JNull
| JBool (b : bool)
| JNum (lexeme : string)
| JStr (s : string)
| JArr (items : list json)
| JObj (members : list (string * json)).

(** [d[k] = v] on a dict: an existing key keeps its place. *)
Fixpoint dict_set (k : string) (v : json) (d : list (string * json))
  : list (string * json) :=
  match d with
  | [] => [(k, v)]
  | (k', v') :: d' =>
      if String.eqb k k' then (k, v) :: d' else (k', v') :: dict_set k v d'
  end.

Fixpoint dict_lookup (k : string) (d : list (string * json)) : option json :=
  match d with
  | [] => None
  | (k', v) :: d' => if String.eqb k k' then Some v else dict_lookup k d'
  end.

(** [obj.get(k, default)]: only a dict has the method. *)
Definition py_get (obj : json) (k : string) (default : json) : result json :=
  match obj with
  | JObj d =>
      match dict_lookup k d with
      | Some v => Ok v
      | None => Ok default
      end
  | _ => Raise (mkExn AttributeError "object has no attribute 'get'")
  end.

Definition quote : ascii := "034"%char.
Definition backslash : ascii := "\"%char.

Definition hex_digit (n : N) : ascii :=
  if (n <? 10)%N then ascii_of_N (48 + n) else ascii_of_N (87 + n).

(** [\uXXXX] for a number below 65536. *)
Definition hex4 (n : N) : string :=
  "\u"
  ++ String (hex_digit (n / 4096))
       (String (hex_digit ((n / 256) mod 16))
          (String (hex_digit ((n / 16) mod 16))
             (String (hex_digit (n mod 16)) EmptyString))).

(** A code point as [json.dumps] writes it when it is not printable ASCII:
    one escape, or a surrogate pair above the basic plane. *)
Definition escape_code_point (cp : N) : string :=
  if (cp <? 65536)%N then hex4 cp
  else
    let v := (cp - 65536)%N in
    hex4 (55296 + v / 1024) ++ hex4 (56320 + v mod 1024).

(** One ASCII character inside a string literal written by [json.dumps]. *)
Definition escape_char (c : ascii) : string :=
  let n := N_of_ascii c in
  if Ascii.eqb c quote then String backslash (String quote EmptyString)
  else if Ascii.eqb c backslash then String backslash (String backslash EmptyString)
  else if (n =? 10)%N then "\n"
  else if (n =? 13)%N then "\r"
  else if (n =? 9)%N then "\t"
  else if (n =? 8)%N then "\b"
  else if (n =? 12)%N then "\f"
  else if ((n <? 32) || (n =? 127))%N then hex4 n
  else String c EmptyString.

Definition is_continuation (c : ascii) : bool :=
  let n := N_of_ascii c in ((128 <=? n) && (n <=? 191))%N.

Definition low6 (c : ascii) : N := (N_of_ascii c - 128)%N.

(** The body of a string literal ([ensure_ascii] is on): an ASCII
    character by [escape_char], a character of two, three or four bytes by
    the escape of its code point.  Bytes that are not UTF-8 are kept. *)
Fixpoint escape (s : string) : string :=
  match s with
  | EmptyString => EmptyString
  | String a s1 =>
      let x := N_of_ascii a in
      if (x <? 128)%N then escape_char a ++ escape s1
      else
        match s1 with
        | EmptyString => String a EmptyString
        | String b s2 =>
            if ((194 <=? x) && (x <=? 223))%N && is_continuation b then
              escape_code_point ((x - 192) * 64 + low6 b) ++ escape s2
            else
              match s2 with
              | EmptyString => String a (escape s1)
              | String c s3 =>
                  if ((224 <=? x) && (x <=? 239))%N
                     && is_continuation b && is_continuation c then
                    escape_code_point ((x - 224) * 4096 + low6 b * 64 + low6 c)
                    ++ escape s3
                  else
                    match s3 with
                    | EmptyString => String a (escape s1)
                    | String d s4 =>
                        if ((240 <=? x) && (x <=? 244))%N
                           && is_continuation b && is_continuation c
                           && is_continuation d then
                          escape_code_point
                            ((x - 240) * 262144 + low6 b * 4096 + low6 c * 64 + low6 d)
                          ++ escape s4
                        else String a (escape s1)
                    end
              end
        end
  end.

Definition quoted (s : string) : string :=
  String quote (escape s ++ String quote EmptyString).

Fixpoint join (sep : string) (l : list string) : string :=
  match l with
  | [] => EmptyString
  | [x] => x
  | x :: l' => x ++ sep ++ join sep l'
  end.

(** [json.dumps(v)] with the default separators. *)
Fixpoint dumps (v : json) : string :=
  match v with
  | JNull => "null"
  | JBool true => "true"
  | JBool false => "false"
  | JNum lexeme => lexeme
  | JStr s => quoted s
  | JArr items => "[" ++ join ", " (map dumps items) ++ "]"
  | JObj members =>
      "{" ++ join ", " (map (fun kv => quoted (fst kv) ++ ": " ++ dumps (snd kv)) members)
          ++ "}"
  end.

(** *** A decoder for concrete replies

    [json.loads] itself is a parameter of the agents below ([rt_loads]);
    this decoder is the instance used to run them on concrete texts.  It
    follows the grammar of the [json] module except for [\u] escapes and
    the non-finite number literals, which it rejects.  Running out of fuel
    is reported apart from a syntax error. *)

Inductive parsed (A : Type) : Type :=
| Parsed (a : A) (rest : string)
| Invalid
| OutOfFuel.

Arguments Parsed {A} a rest.
Arguments Invalid {A}.
Arguments OutOfFuel {A}.

Definition is_ws (c : ascii) : bool :=
  let n := nat_of_ascii c in
  ((n =? 32) || (n =? 9) || (n =? 10) || (n =? 13))%nat.

Fixpoint skip_ws (s : string) : string :=
  match s with
  | EmptyString => EmptyString
  | String c s' => if is_ws c then skip_ws s' else s
  end.

Definition unescape (c : ascii) : option ascii :=
  if Ascii.eqb c quote then Some quote
  else if Ascii.eqb c backslash then Some backslash
  else if Ascii.eqb c "/" then Some "/"%char
  else if Ascii.eqb c "b" then Some (ascii_of_nat 8)
  else if Ascii.eqb c "f" then Some (ascii_of_nat 12)
  else if Ascii.eqb c "n" then Some (ascii_of_nat 10)
  else if Ascii.eqb c "r" then Some (ascii_of_nat 13)
  else if Ascii.eqb c "t" then Some (ascii_of_nat 9)
  else None.

(** The body of a string literal, read from just after its opening quote. *)
Fixpoint parse_chars (s : string) : option (string * string) :=
  match s with
  | EmptyString => None
  | String c s' =>
      if Ascii.eqb c quote then Some (EmptyString, s')
      else if Ascii.eqb c backslash then
        match s' with
        | EmptyString => None
        | String e s'' =>
            match unescape e, parse_chars s'' with
            | Some d, Some (body, rest) => Some (String d body, rest)
            | _, _ => None
            end
        end
      else if (nat_of_ascii c <? 32)%nat then None
      else
        match parse_chars s' with
        | Some (body, rest) => Some (String c body, rest)
        | None => None
        end
  end.

Definition is_digit (c : ascii) : bool :=
  let n := nat_of_ascii c in ((48 <=? n) && (n <=? 57))%nat.

Fixpoint span_digits (s : string) : string * string :=
  match s with
  | EmptyString => (EmptyString, EmptyString)
  | String c s' =>
      if is_digit c then
        let (d, rest) := span_digits s' in (String c d, rest)
      else (EmptyString, s)
  end.

(** The integer part [0|[1-9][0-9]*]. *)
Definition parse_int (s : string) : option (string * string) :=
  match s with
  | EmptyString => None
  | String c s' =>
      if Ascii.eqb c "0" then Some ("0", s')
      else if is_digit c then Some (span_digits s)
      else None
  end.

(** An optional group that needs at least one digit after [lead]. *)
Definition parse_digits_after (lead : string) (s : string) : string * string :=
  match span_digits s with
  | (EmptyString, _) => (EmptyString, lead ++ s)
  | (d, rest) => (lead ++ d, rest)
  end.

Definition parse_frac (s : string) : string * string :=
  match s with
  | String "." s' => parse_digits_after "." s'
  | _ => (EmptyString, s)
  end.

Definition parse_exp (s : string) : string * string :=
  match s with
  | String e s' =>
      if Ascii.eqb e "e" || Ascii.eqb e "E" then
        match s' with
        | String sg s'' =>
            if Ascii.eqb sg "+" || Ascii.eqb sg "-" then
              match span_digits s'' with
              | (EmptyString, _) => (EmptyString, s)
              | (d, rest) => (String e (String sg d), rest)
              end
            else
              match span_digits s' with
              | (EmptyString, _) => (EmptyString, s)
              | (d, rest) => (String e d, rest)
              end
        | EmptyString => (EmptyString, s)
        end
      else (EmptyString, s)
  | EmptyString => (EmptyString, s)
  end.

Definition parse_number (s : string) : option (string * string) :=
  let (sign, s1) :=
    match s with
    | String "-" s' => ("-", s')
    | _ => (EmptyString, s)
    end in
  match parse_int s1 with
  | None => None
  | Some (i, s2) =>
      let (f, s3) := parse_frac s2 in
      let (e, s4) := parse_exp s3 in
      Some (sign ++ i ++ f ++ e, s4)
  end.

(** [s] without the prefix [p], when it starts with it. *)
Fixpoint strip_prefix (p s : string) : option string :=
  match p, s with
  | EmptyString, _ => Some s
  | String a p', String b s' => if Ascii.eqb a b then strip_prefix p' s' else None
  | String _ _, EmptyString => None
  end.

Definition parse_literal (word : string) (v : json) (s : string) : parsed json :=
  match strip_prefix word s with
  | Some rest => Parsed v rest
  | None => Invalid
  end.

(** [parse_value] reads one value at the head of [s]; [parse_items] the
    rest of an array from the start of an element; [parse_pairs] the rest of
    an object from the opening quote of a key. *)
Fixpoint parse_value (fuel : nat) (s : string) : parsed json :=
  match fuel with
  | O => OutOfFuel
  | S fuel' =>
      match s with
      | EmptyString => Invalid
      | String c s' =>
          if Ascii.eqb c quote then
            match parse_chars s' with
            | Some (body, rest) => Parsed (JStr body) rest
            | None => Invalid
            end
          else if Ascii.eqb c "{" then
            match skip_ws s' with
            | String "}" rest => Parsed (JObj []) rest
            | s1 => parse_pairs fuel' s1 []
            end
          else if Ascii.eqb c "[" then
            match skip_ws s' with
            | String "]" rest => Parsed (JArr []) rest
            | s1 => parse_items fuel' s1 []
            end
          else if Ascii.eqb c "n" then parse_literal "null" JNull s
          else if Ascii.eqb c "t" then parse_literal "true" (JBool true) s
          else if Ascii.eqb c "f" then parse_literal "false" (JBool false) s
          else
            match parse_number s with
            | Some (lexeme, rest) => Parsed (JNum lexeme) rest
            | None => Invalid
            end
      end
  end

with parse_items (fuel : nat) (s : string) (acc : list json) : parsed json :=
  match fuel with
  | O => OutOfFuel
  | S fuel' =>
      match parse_value fuel' s with
      | Parsed v rest =>
          match skip_ws rest with
          | String "]" rest' => Parsed (JArr (rev (v :: acc))) rest'
          | String "," rest' => parse_items fuel' (skip_ws rest') (v :: acc)
          | _ => Invalid
          end
      | Invalid => Invalid
      | OutOfFuel => OutOfFuel
      end
  end

with parse_pairs (fuel : nat) (s : string) (acc : list (string * json))
  : parsed json :=
  match fuel with
  | O => OutOfFuel
  | S fuel' =>
      match s with
      | String c s' =>
          if Ascii.eqb c quote then
            match parse_chars s' with
            | Some (key, rest) =>
                match skip_ws rest with
                | String ":" rest1 =>
                    match parse_value fuel' (skip_ws rest1) with
                    | Parsed v rest2 =>
                        match skip_ws rest2 with
                        | String "}" rest3 => Parsed (JObj (dict_set key v acc)) rest3
                        | String "," rest3 =>
                            parse_pairs fuel' (skip_ws rest3) (dict_set key v acc)
                        | _ => Invalid
                        end
                    | Invalid => Invalid
                    | OutOfFuel => OutOfFuel
                    end
                | _ => Invalid
                end
            | None => Invalid
            end
          else Invalid
      | EmptyString => Invalid
      end
  end.

(** [json.loads(s)] on the fragment above. *)
Definition loads (s : string) : result json :=
  match parse_value (2 * String.length s + 2) (skip_ws s) with
  | Parsed v rest =>
      match skip_ws rest with
      | EmptyString => Ok v
      | _ => Raise (mkExn JSONDecodeError "Extra data")
      end
  | Invalid => Raise (mkExn JSONDecodeError "Expecting value")
  | OutOfFuel => Raise (mkExn RecursionError "maximum recursion depth exceeded")
  end.

End Json.

(** ** The a2a task envelope and the event queue *)

Module A2A.

Import Py.

Inductive TaskState : Type :=
| submitted
| working
| input_required
| completed
| canceled
| failed
| rejected
| auth_required
| unknown.

(** A message or artifact part: text, or a part without text. *)
Inductive Part : Type :=
| TextPart (text : string)
| DataPart.

Record Message : Type := mkMessage {
  role : string;
  parts : list Part;
  message_id : string;
  message_task_id : option string;
  message_context_id : option string
}.

Record Artifact : Type := mkArtifact {
  artifact_id : string;
  artifact_name : string;
  artifact_parts : list Part
}.

Record Task : Type := mkTask {
  id : string;
  task_context_id : string;
  state : TaskState;
  artifacts : list Artifact;
  history : list Message
}.

(** What an executor puts on its [EventQueue]. *)
Inductive Event : Type :=
| TaskEvent (task : Task)
| TaskStatusUpdateEvent (task_id context_id : string) (status : TaskState)
                        (message : option Message) (final : bool).

Record RequestContext : Type := mkRequestContext {
  current_task : option Task;
  message : option Message;
  task_id : string;
  context_id : string
}.

(** The helpers of the SDK the executors call.  They live outside the
    repository; [SdkContract] states what the executors rely on. *)
Record Sdk : Type := mkSdk {
  new_task : option Message -> result Task;
  get_user_input : RequestContext -> result string;
  completed_task :
    string -> string -> list Artifact -> list (option Message) -> result Task;
  new_artifact : list Part -> string -> Artifact;
  new_agent_text_message : string -> string -> string -> Message
}.

Record SdkContract (sdk : Sdk) : Prop := mkSdkContract {
  new_task_submitted :
    forall m t, new_task sdk m = Ok t -> state t = submitted;
  completed_task_completed :
    forall i c arts hist t,
      completed_task sdk i c arts hist = Ok t ->
      state t = completed /\ artifacts t = arts
}.

Definition state_of (ev : Event) : TaskState :=
  match ev with
  | TaskEvent t => state t
  | TaskStatusUpdateEvent _ _ st _ _ => st
  end.

(** Terminal states of a task: completed, failed or canceled. *)
Definition terminal_state (st : TaskState) : bool :=
  match st with
  | completed | failed | canceled => true
  | _ => false
  end.

Definition is_terminal (ev : Event) : bool := terminal_state (state_of ev).

Definition is_completed (ev : Event) : bool :=
  match state_of ev with
  | completed => true
  | _ => false
  end.

Definition is_failed (ev : Event) : bool :=
  match state_of ev with
  | failed => true
  | _ => false
  end.

(** *** Code that runs against an event queue

    A computation takes the events queued so far and gives the queue it
    leaves behind with its outcome. *)
Definition Exec (A : Type) : Type := list Event -> list Event * result A.

Definition ret {A : Type} (a : A) : Exec A := fun q => (q, Ok a).

Definition bind {A B : Type} (m : Exec A) (k : A -> Exec B) : Exec B :=
  fun q =>
    match m q with
    | (q', Ok a) => k a q'
    | (q', Raise e) => (q', Raise e)
    end.

Definition lift {A : Type} (r : result A) : Exec A := fun q => (q, r).

(** [await event_queue.enqueue_event(ev)] *)
Definition enqueue_event (ev : Event) : Exec unit :=
  fun q => (q ++ [ev], Ok tt)%list.

(** [TaskUpdater(queue, task_id, context_id).update_status(st, msg, final)] *)
Definition update_status (tid cid : string) (st : TaskState)
           (msg : option Message) (final : bool) : Exec unit :=
  enqueue_event (TaskStatusUpdateEvent tid cid st msg final).

(** [try: body  except Exception as e: handler e] *)
Definition try_except {A : Type} (body : Exec A) (handler : exn -> Exec A)
  : Exec A :=
  fun q =>
    match body q with
    | (q', Ok a) => (q', Ok a)
    | (q', Raise e) => if is_Exception e then handler e q' else (q', Raise e)
    end.

(** The events a run added to the queue [q0] it started from. *)
Definition emitted (q0 q : list Event) : list Event :=
  skipn (List.length q0) q.

End A2A.

Declare Scope exec_scope.
Delimit Scope exec_scope with exec.
Notation "x <- c ;; k" := (A2A.bind c (fun x => k))
  (at level 61, c at next level, right associativity) : exec_scope.

(** ** The environment of the agents *)

Module Env.

Import Py Json.

(** An HTTP response as [requests] hands it over. *)
Record Response : Type := mkResponse {
  raise_for_status : result unit;
  response_json : result json
}.

(** What the agents take from the interpreter and its libraries:
    [json.loads], [str()] of a decoded value inside an f-string,
    [os.environ] and [requests.post(url, json=payload, timeout=t)]. *)
Record Runtime : Type := mkRuntime {
  rt_loads : string -> result json;
  rt_str : json -> string;
  rt_environ : string -> option string;
  rt_post : string -> json -> nat -> result Response
}.

(** [os.environ.get(k, default)] *)
Definition environ_get (rt : Runtime) (k default : string) : string :=
  match rt_environ rt k with
  | Some v => v
  | None => default
  end.

End Env.

(** ** Safety agent ([server/agents/safety/server.py]) *)

Module Safety.

Import PyStr Py Json A2A.

(** *** Context retrieval *)

Record Contact : Type := mkContact {
  name : string;
  phone : string;
  relation : string;
  preferred_method : string
}.

Record EmergencyContext : Type := mkEmergencyContext {
  user_name : string;
  current_time : string;
  location : string;
  emergency_contacts : list Contact;
  medical_notes : string
}.

(** [now] is the clock reading [datetime.datetime.now().strftime("%H:%M")]. *)
Definition get_emergency_context (now : string) (user_id : string)
  : EmergencyContext :=
  {| user_name := "Grandpa Joe";
     current_time := now;
     location := "Home - 123 Maple St";
     emergency_contacts :=
       [ {| name := "Tommy"; phone := "555-0199"; relation := "Grandson";
            preferred_method := "call" |};
         {| name := "Dr. Smith"; phone := "555-0900"; relation := "Doctor";
            preferred_method := "message" |} ];
     medical_notes := "History of heart arrhythmia." |}.

(** *** The keyword classifier *)

(** The dict built at the end of [analyze_safety]. *)
Record SafetyResult : Type := mkSafetyResult {
  is_safe : bool;
  reason : string;
  response_suggestion : string
}.

Definition crisis_keywords : list string :=
  ["fall"; "fell"; "chest pain"; "hurt myself"; "suicide"; "emergency";
   "blood"; "help me"].

Definition crisis_suggestion : string :=
  "I am concerned about what you just said. I am notifying your emergency contact immediately. Please stay on the line.".

(** The verdict the function starts from and returns when no keyword hits. *)
Definition stable : SafetyResult :=
  {| is_safe := true;
     reason := "User appears stable.";
     response_suggestion := EmptyString |}.

Definition detected (word : string) : SafetyResult :=
  {| is_safe := false;
     reason := "Detected crisis keyword: " ++ word;
     response_suggestion := crisis_suggestion |}.

(** The [for word in crisis_keywords: ... break] loop: [acc] is the triple of
    locals, overwritten at the first keyword found in the text. *)
Fixpoint scan (keywords : list string) (text_lower : string)
         (acc : SafetyResult) : SafetyResult :=
  match keywords with
  | [] => acc
  | word :: rest =>
      if str_in word text_lower then detected word
      else scan rest text_lower acc
  end.

Definition analyze_safety (text : string) : SafetyResult :=
  let text_lower := lower text in
  scan crisis_keywords text_lower stable.

(** The first entry of a lexicon that occurs in a text. *)
Fixpoint first_match (keywords : list string) (t : string) : option string :=
  match keywords with
  | [] => None
  | word :: rest => if str_in word t then Some word else first_match rest t
  end.

(** *** The agent handed to the runner *)

Record AgentConfig : Type := mkAgentConfig {
  agent_name : string;
  agent_model : string;
  agent_description : string;
  instruction : string;
  tools : list string
}.

(** The agent built by [_initialize_runner]: the risk level, the action and
    the method of an assessment are asked of the language model by this
    instruction text.  [environ] is [os.environ]. *)
Definition safety_agent (environ : string -> option string) : AgentConfig :=
  {| agent_name := "safety_monitor";
     agent_model :=
       match environ "SAFETY_MODEL" with
       | Some model_name => model_name
       | None => "ollama_chat/gpt-oss:20b"
       end;
     agent_description :=
       "A real-time safety monitor that analyzes conversation for crises.";
     instruction :=
       ("You are the Safety Decision Engine. You must output JSON ONLY." ++ newline
     ++ "You must follow this flowchart state machine:" ++ newline ++ newline
     ++ "STEP 1: FETCH CONTEXT" ++ newline
     ++ "- Always call `get_emergency_context` to see contacts and time." ++ newline ++ newline
     ++ "STEP 2: DETERMINE RISK LEVEL (based on user text)" ++ newline
     ++ "- LOW: Casual chat. -> Action: 'continue_calm'" ++ newline
     ++ "- MEDIUM: Sadness, loneliness, confusion. -> Action: 'offer_support'" ++ newline
     ++ "- HIGH: Pain, falls, medical issues, panic. -> Go to STEP 3." ++ newline ++ newline
     ++ "STEP 3: HANDLE HIGH RISK (Conversation Flow)" ++ newline
     ++ "- IF this is the FIRST mention of danger:" ++ newline
     ++ "  -> Action: 'confirm_emergency'" ++ newline
     ++ "  -> Reason: 'User reported high risk situation. Seeking confirmation.'" ++ newline
     ++ "- IF user confirms 'YES' (e.g., 'yes', 'please', 'help'):" ++ newline
     ++ "  -> Action: 'execute_action'" ++ newline
     ++ "  -> Method: 'call' or 'message' (based on contact preference)" ++ newline
     ++ "- IF user says 'NO' (e.g., 'I'm fine', 'wait'):" ++ newline
     ++ "  -> Action: 'stay_present_monitor'" ++ newline ++ newline);
     tools := ["analyze_safety"; "get_emergency_context"] |}.

(** *** ADK manager *)

(** One element of a step's content. *)
Record StepPart : Type := mkStepPart {
  text : option string
}.

(** An event of the runner.  [is_final_response] is [None] when the object
    has no such attribute, [content] is [None] when it is absent or empty. *)
Record Step : Type := mkStep {
  is_final_response : option bool;
  content : option (list StepPart)
}.

(** The session service and the runner held by the manager. *)
Record Adk : Type := mkAdk {
  get_session : string -> string -> result unit;
  create_session : string -> string -> string -> result unit;
  run : string -> string -> string -> result (list Step)
}.

(** The body of the loop over the steps: [response_text] after one step. *)
Definition step_text (response_text : option string) (step : Step)
  : option string :=
  match is_final_response step with
  | Some true =>
      match content step with
      | Some (part :: _) => text part
      | _ => response_text
      end
  | _ => response_text
  end.

(** The dict serialised when the run leaves [response_text] empty. *)
Definition no_output : json :=
  JObj [("is_safe", JBool true);
        ("reason", JStr "Agent provided no output");
        ("response_suggestion", JStr EmptyString)].

Definition process_message (adk : Adk) (user_id session_id text : string)
  : result string :=
  (_ <- Py.try_except (get_session adk user_id session_id)
          (fun _ => create_session adk "safety_service" user_id session_id) ;;
   Py.try_except
     (steps <- run adk user_id session_id text ;;
      match fold_left step_text steps (Some EmptyString) with
      | Some (String c s) => Ok (String c s)
      | _ => Ok (dumps no_output)
      end)
     (fun e => Raise e))%py.

(** *** The executor *)

Definition execute_body (sdk : Sdk) (adk : Adk) (context : RequestContext)
  : Exec unit :=
  (task <- match current_task context with
           | Some t => ret t
           | None =>
               t <- lift (new_task sdk (message context)) ;;
               _ <- enqueue_event (TaskEvent t) ;;
               ret t
           end ;;
   user_input <- lift (get_user_input sdk context) ;;
   let user_id := "default_user" in
   let session_id := context_id context in
   response_text <- lift (process_message adk user_id session_id user_input) ;;
   done <- lift (completed_task sdk (id task) (task_context_id task)
                   [new_artifact sdk [TextPart response_text]
                      "safety_analysis_result"]
                   [message context]) ;;
   enqueue_event (TaskEvent done))%exec.

Definition execute (sdk : Sdk) (adk : Adk) (context : RequestContext)
  : Exec unit :=
  A2A.try_except (execute_body sdk adk context)
    (fun e =>
       update_status (task_id context) (context_id context) failed
         (Some (new_agent_text_message sdk
                  ("Safety Analysis Failed: " ++ exn_str e)
                  (context_id context) (task_id context)))
         true).

Definition cancel (context : RequestContext) : Exec unit :=
  lift (Raise (mkExn (ServerError UnsupportedOperationError) EmptyString)).

End Safety.

(** ** Conversation agent ([server/agents/conversation/server.py]) *)

Module Conversation.

Import PyStr Py Json A2A Env.

(** [v.strip()]: only a string has the method. *)
Definition py_strip (v : json) : result string :=
  match v with
  | JStr s => Ok (strip s)
  | _ => Raise (mkExn AttributeError "object has no attribute 'strip'")
  end.

Definition prompt_of (rt : Runtime) (user_text memory : json) : string :=
  "You are a warm, empathetic companion for an older adult. "
  ++ "Reply gently, briefly, and encouragingly." ++ newline ++ newline
  ++ "User: " ++ rt_str rt user_text ++ newline
  ++ "Memory context: " ++ rt_str rt memory ++ newline
  ++ "Assistant:".

(** The [try] block of [generate_llm_response]. *)
Definition generate_llm_response_body (rt : Runtime) (input_json : string)
  : result string :=
  (data <- rt_loads rt input_json ;;
   user_text <- py_get data "user_text" (JStr EmptyString) ;;
   memory <- py_get data "memory_context" (JStr EmptyString) ;;
   let prompt := prompt_of rt user_text memory in
   let model := environ_get rt "OLLAMA_MODEL" "llama3.1:8b" in
   let base_url := environ_get rt "OLLAMA_BASE_URL" "http://localhost:11434" in
   let url := base_url ++ "/api/generate" in
   let payload :=
     JObj [("model", JStr model); ("prompt", JStr prompt);
           ("stream", JBool false)] in
   resp <- rt_post rt url payload 30 ;;
   _ <- raise_for_status resp ;;
   data <- response_json resp ;;
   answer <- py_get data "response" (JStr EmptyString) ;;
   stripped <- py_strip answer ;;
   Ok (if truthy stripped then stripped
       else "[Warm Tone] I'm here with you."))%py.

Definition generate_llm_response (rt : Runtime) (input_json : string)
  : result string :=
  match generate_llm_response_body rt input_json with
  | Ok s => Ok s
  | Raise e =>
      if is_JSONDecodeError e then
        Ok ("[Warm Tone] I hear you saying: " ++ input_json)
      else if is_Exception e then
        Ok "[Warm Tone] I'm here with you. Tell me more, dear."
      else Raise e
  end.

Definition execute_body (sdk : Sdk) (rt : Runtime) (context : RequestContext)
  : Exec unit :=
  (task <- match current_task context with
           | Some t => ret t
           | None =>
               t <- lift (new_task sdk (message context)) ;;
               _ <- enqueue_event (TaskEvent t) ;;
               ret t
           end ;;
   user_input <- lift (get_user_input sdk context) ;;
   response_text <- lift (generate_llm_response rt user_input) ;;
   done <- lift (completed_task sdk (id task) (task_context_id task)
                   [new_artifact sdk [TextPart response_text] "response"]
                   [message context]) ;;
   enqueue_event (TaskEvent done))%exec.

Definition execute (sdk : Sdk) (rt : Runtime) (context : RequestContext)
  : Exec unit :=
  A2A.try_except (execute_body sdk rt context)
    (fun e =>
       update_status (task_id context) (context_id context) failed None true).

Definition cancel (context : RequestContext) : Exec unit :=
  lift (Raise (mkExn (ServerError UnsupportedOperationError) EmptyString)).

End Conversation.

(** ** Orchestrator ([server/agents/orchestrator/agent.py]) *)

Module Orchestrator.

Import Py Json Env.

(** A part of a response chunk: text under [part.root], text on the part
    itself, or no text at all. *)
Inductive ChunkPart : Type :=
| RootText (text : string)
| PlainText (text : string)
| NoText.

(** A chunk of the client's response stream; [chunk_parts] is [None] when
    the object has no attribute [parts]. *)
Record Chunk : Type := mkChunk {
  chunk_parts : option (list ChunkPart)
}.

(** Card resolution, client creation and [client.send_message], as one
    call from an agent address and a text to the chunks received. *)
Definition Network : Type := string -> string -> result (list Chunk).

Definition part_text (acc : string) (part : ChunkPart) : string :=
  match part with
  | RootText t => acc ++ t
  | PlainText t => acc ++ t
  | NoText => acc
  end.

Definition call_a2a_agent (net : Network) (agent_url message_text : string)
  : result json :=
  Py.try_except
    (chunks <- net agent_url message_text ;;
     match fold_left (fun _ chunk => Some chunk) chunks None with
     | None => Ok (JObj [("status", JStr "error"); ("error", JStr "No response")])
     | Some final_response =>
         let response_text :=
           match chunk_parts final_response with
           | Some ps => fold_left part_text ps EmptyString
           | None => EmptyString
           end in
         Ok (JObj [("status", JStr "success");
                   ("response_text", JStr response_text)])
     end)%py
    (fun e => Ok (JObj [("status", JStr "error"); ("error", JStr (exn_str e))])).

(** [json.loads(v)] on a value taken from a dict. *)
Definition loads_value (rt : Runtime) (v : json) : result json :=
  match v with
  | JStr s => rt_loads rt s
  | _ => Raise (mkExn TypeError "the JSON object must be str, bytes or bytearray")
  end.

Definition parse_error_verdict : json :=
  JObj [("is_safe", JBool true); ("reason", JStr "Parse error, assuming safe")].

Definition check_safety (rt : Runtime) (net : Network) (user_text : string)
  : result json :=
  (result <- call_a2a_agent net "http://safety-agent:8080" user_text ;;
   match (reply <- py_get result "response_text" (JStr "{}") ;;
          loads_value rt reply) with
   | Ok safety_data => Ok safety_data
   | Raise e =>
       if is_JSONDecodeError e then Ok parse_error_verdict else Raise e
   end)%py.

(** What a caller reads in the verdict: [verdict.get(is_safe)] is true. *)
Definition says_safe (verdict : json) : bool :=
  match verdict with
  | JObj d =>
      match dict_lookup "is_safe" d with
      | Some (JBool true) => true
      | _ => false
      end
  | _ => false
  end.

(** The other tools of the orchestrator.  Their payloads are written with
    [dumps], which leaves non-ASCII bytes as they are where [json.dumps]
    escapes them; a payload is only handed to the network here. *)





End Orchestrator.

(** ** Onboarding agent ([server/agents/agent.py]) *)

Module Onboarding.

Import PyStr Json.

(** A list of identifiers as the JSON list of their strings. *)
Definition id_list (ids : list string) : json := JArr (map JStr ids).

(** *** Component helpers *)

Definition create_a2ui_text (id text usage_hint : string) : json :=
  JObj [("id", JStr id);
        ("component",
         JObj [("Text",
                JObj [("text", JObj [("literalString", JStr text)]);
                      ("usageHint", JStr usage_hint)])])].

Definition create_a2ui_textfield (id label data_path hint : string) : json :=
  JObj [("id", JStr id);
        ("component",
         JObj [("TextField",
                JObj [("label", JObj [("literalString", JStr label)]);
                      ("text", JObj [("path", JStr data_path)]);
                      ("hintText",
                       if truthy hint then JObj [("literalString", JStr hint)]
                       else JNull)])])].

(** [context_path] is [None] for the default argument.  The context is set
    on the action dict after the button is built. *)
Definition create_a2ui_button (id text_id action_name : string)
           (context_path : option string) : json :=
  let action := [("name", JStr action_name)] in
  let action :=
    match context_path with
    | Some (String c p) =>
        dict_set "context"
          (JArr [JObj [("key", JStr "data");
                       ("value", JObj [("path", JStr (String c p))])]])
          action
    | _ => action
    end in
  JObj [("id", JStr id);
        ("component",
         JObj [("Button", JObj [("child", JStr text_id); ("action", JObj action)])])].

Definition create_a2ui_column (id : string) (children : list string) : json :=
  JObj [("id", JStr id);
        ("component",
         JObj [("Column", JObj [("children", JObj [("explicitList", id_list children)])])])].

Definition create_a2ui_row (id : string) (children : list string) : json :=
  JObj [("id", JStr id);
        ("component",
         JObj [("Row", JObj [("children", JObj [("explicitList", id_list children)])])])].

Definition create_a2ui_card (id content_id : string) : json :=
  JObj [("id", JStr id);
        ("component", JObj [("Card", JObj [("contentChild", JStr content_id)])])].

(** *** The messages of a screen *)

Definition surface_update (components : list json) : json :=
  JObj [("surfaceUpdate",
         JObj [("surfaceId", JStr "main"); ("components", JArr components)])].

Definition begin_rendering : json :=
  JObj [("beginRendering", JObj [("surfaceId", JStr "main"); ("root", JStr "root")])].

Definition data_model_update (contents : list json) : json :=
  JObj [("dataModelUpdate",
         JObj [("surfaceId", JStr "main"); ("contents", JArr contents)])].

Definition screen (messages : list json) (description : string) : json :=
  JObj [("status", JStr "success");
        ("a2ui_messages", JArr messages);
        ("description", JStr description)].

(** *** Onboarding step tools *)

Definition welcome_components : list json :=
  [ create_a2ui_column "root" ["welcome-card"];
    create_a2ui_card "welcome-card" "welcome-content";
    create_a2ui_column "welcome-content" ["title"; "subtitle"; "description"; "start-btn"];
    create_a2ui_text "title" "Welcome! ðŸ‘‹" "h1";
    create_a2ui_text "subtitle" "Let's get you set up" "h2";
    create_a2ui_text "description" "This quick onboarding will help us personalize your experience. It only takes a minute!" "body";
    create_a2ui_text "start-btn-text" "Get Started" "body";
    create_a2ui_button "start-btn" "start-btn-text" "start_onboarding" None ].

Definition show_welcome_screen : json :=
  screen [surface_update welcome_components; begin_rendering] "Welcome screen displayed".

Definition name_input_components : list json :=
  [ create_a2ui_column "root" ["name-card"];
    create_a2ui_card "name-card" "name-content";
    create_a2ui_column "name-content" ["step-indicator"; "title"; "name-field"; "next-btn"];
    create_a2ui_text "step-indicator" "Step 1 of 3" "caption";
    create_a2ui_text "title" "What's your name?" "h2";
    create_a2ui_textfield "name-field" "Your name" "/user/name" "Enter your full name";
    create_a2ui_text "next-btn-text" "Continue" "body";
    create_a2ui_button "next-btn" "next-btn-text" "submit_name" (Some "/user") ].

Definition show_name_input_screen : json :=
  screen
    [surface_update name_input_components;
     data_model_update
       [JObj [("key", JStr "user");
              ("valueMap",
               JArr [JObj [("key", JStr "name"); ("valueString", JStr EmptyString)]])]];
     begin_rendering]
    "Name input screen displayed".

Definition interests_components (user_name : string) : list json :=
  [ create_a2ui_column "root" ["interests-card"];
    create_a2ui_card "interests-card" "interests-content";
    create_a2ui_column "interests-content" ["step-indicator"; "greeting"; "title"; "desc"; "interests-row-1"; "interests-row-2"; "next-btn"];
    create_a2ui_text "step-indicator" "Step 2 of 3" "caption";
    create_a2ui_text "greeting" ("Nice to meet you, " ++ user_name ++ "! ðŸŽ‰") "h3";
    create_a2ui_text "title" "What interests you?" "h2";
    create_a2ui_text "desc" "Select topics you'd like to explore:" "body";
    create_a2ui_row "interests-row-1" ["tech-btn"; "design-btn"];
    create_a2ui_text "tech-text" "ðŸš€ Technology" "body";
    create_a2ui_button "tech-btn" "tech-text" "toggle_interest" (Some "/interests/technology");
    create_a2ui_text "design-text" "ðŸŽ¨ Design" "body";
    create_a2ui_button "design-btn" "design-text" "toggle_interest" (Some "/interests/design");
    create_a2ui_row "interests-row-2" ["business-btn"; "science-btn"];
    create_a2ui_text "business-text" "ðŸ’¼ Business" "body";
    create_a2ui_button "business-btn" "business-text" "toggle_interest" (Some "/interests/business");
    create_a2ui_text "science-text" "ðŸ”¬ Science" "body";
    create_a2ui_button "science-btn" "science-text" "toggle_interest" (Some "/interests/science");
    create_a2ui_text "next-btn-text" "Continue" "body";
    create_a2ui_button "next-btn" "next-btn-text" "submit_interests" (Some "/interests") ].

Definition show_interests_screen (user_name : string) : json :=
  screen
    [surface_update (interests_components user_name);
     data_model_update
       [JObj [("key", JStr "interests");
              ("valueMap",
               JArr [JObj [("key", JStr "technology"); ("valueBoolean", JBool false)];
                     JObj [("key", JStr "design"); ("valueBoolean", JBool false)];
                     JObj [("key", JStr "business"); ("valueBoolean", JBool false)];
                     JObj [("key", JStr "science"); ("valueBoolean", JBool false)]])]];
     begin_rendering]
    ("Interests screen displayed for " ++ user_name).

Definition completion_components (user_name : string) : list json :=
  [ create_a2ui_column "root" ["complete-card"];
    create_a2ui_card "complete-card" "complete-content";
    create_a2ui_column "complete-content" ["step-indicator"; "emoji"; "title"; "message"; "finish-btn"];
    create_a2ui_text "step-indicator" "Step 3 of 3" "caption";
    create_a2ui_text "emoji" "ðŸŽŠ" "h1";
    create_a2ui_text "title" "You're all set!" "h1";
    create_a2ui_text "message" ("Welcome aboard, " ++ user_name ++ "! Your personalized experience is ready. We've tailored everything based on your interests.") "body";
    create_a2ui_text "finish-btn-text" "Start Exploring" "body";
    create_a2ui_button "finish-btn" "finish-btn-text" "finish_onboarding" None ].

Definition show_completion_screen (user_name : string) : json :=
  screen [surface_update (completion_components user_name); begin_rendering]
    ("Completion screen displayed for " ++ user_name).

Definition dashboard_components (user_name : string) : list json :=
  [ create_a2ui_column "root" ["header"; "content"];
    create_a2ui_text "header" ("Hello, " ++ user_name ++ "! ðŸ‘‹") "h1";
    create_a2ui_card "content" "content-inner";
    create_a2ui_column "content-inner" ["welcome-msg"; "restart-btn"];
    create_a2ui_text "welcome-msg" "This is your personalized dashboard. Explore and discover content tailored just for you!" "body";
    create_a2ui_text "restart-btn-text" "Restart Onboarding" "body";
    create_a2ui_button "restart-btn" "restart-btn-text" "restart_onboarding" None ].

Definition show_dashboard (user_name : string) : json :=
  screen [surface_update (dashboard_components user_name); begin_rendering]
    ("Dashboard displayed for " ++ user_name).

End Onboarding.

(** ** The spec's vocabulary *)

Module Spec.

Import PyStr Safety.

Inductive RiskLevel : Type := LOW | MEDIUM | HIGH.

Inductive Action : Type :=
| continue_calm
| offer_support
| confirm_emergency
| execute_action
| stay_present_monitor.

(** The classification the spec describes for a session without a pending
    confirmation: crisis lexicon first, then a distress lexicon, then the
    table from level to action. *)
Definition spec_classify (distress : list string) (utterance : string)
  : RiskLevel * Action :=
  let t := lower utterance in
  match first_match crisis_keywords t with
  | Some _ => (HIGH, confirm_emergency)
  | None =>
      match first_match distress t with
      | Some _ => (MEDIUM, offer_support)
      | None => (LOW, continue_calm)
      end
  end.

(** The verdict of [analyze_safety] in that vocabulary: a verdict that is
    not safe is the HIGH row of the table, a safe one the LOW row. *)
Definition verdict_level (r : SafetyResult) : RiskLevel * Action :=
  if is_safe r then (LOW, continue_calm) else (HIGH, confirm_emergency).

(** The spec names sadness, loneliness and confusion terms without listing
    them; these three stand for that lexicon where a concrete one is
    needed. *)
Definition distress_terms : list string := ["sad"; "lonely"; "confused"].

(** A keyword occurrence inside a longer word: the text splits around the
    keyword with a letter right before or right after it. *)
Definition inside_longer_word (w t : string) : Prop :=
  exists pre post,
    t = pre ++ w ++ post /\
    (opt_alpha (last_char pre) || opt_alpha (first_char post)) = true.

End Spec.

(** ** Instances used to run the model *)

Module Instances.

Import PyStr Py Json A2A Env Safety Orchestrator.

Definition part_texts (ps : list Part) : list string :=
  flat_map (fun p => match p with TextPart t => [t] | DataPart => [] end) ps.

Definition has_empty_text (ps : list Part) : bool :=
  existsb (fun p => match p with TextPart EmptyString => true | _ => false end) ps.

Definition or_default (o : option string) (d : string) : string :=
  match o with
  | Some (String c s) => String c s
  | _ => d
  end.

(** The helpers of [a2a.utils], with fixed identifiers in place of fresh
    ones. *)
Definition a2a_utils : Sdk :=
  {| new_task := fun request =>
       match request with
       | None => Raise (mkExn AttributeError "'NoneType' object has no attribute 'role'")
       | Some m =>
           if negb (truthy (role m)) then
             Raise (mkExn TypeError "Message role cannot be None")
           else if match parts m with [] => true | _ => false end then
             Raise (mkExn ValueError "Message parts cannot be empty")
           else if has_empty_text (parts m) then
             Raise (mkExn ValueError "TextPart content cannot be empty")
           else
             Ok {| id := or_default (message_task_id m) "task-1";
                   task_context_id := or_default (message_context_id m) "context-1";
                   state := submitted;
                   artifacts := [];
                   history := [m] |}
       end;
     get_user_input := fun context =>
       match message context with
       | None => Ok EmptyString
       | Some m => Ok (join newline (part_texts (parts m)))
       end;
     completed_task := fun i c arts hist =>
       match arts with
       | [] => Raise (mkExn ValueError "artifacts must be a non-empty list of Artifact objects")
       | _ =>
           Ok {| id := i; task_context_id := c; state := completed;
                 artifacts := arts;
                 history := flat_map (fun o => match o with Some m => [m] | None => [] end) hist |}
       end;
     new_artifact := fun ps nm =>
       {| artifact_id := "artifact-1"; artifact_name := nm; artifact_parts := ps |};
     new_agent_text_message := fun txt cid tid =>
       {| role := "agent"; parts := [TextPart txt]; message_id := "message-1";
          message_task_id := Some tid; message_context_id := Some cid |} |}.

Definition user_message (txt : string) : Message :=
  {| role := "user"; parts := [TextPart txt]; message_id := "message-0";
     message_task_id := None; message_context_id := None |}.

Definition request (txt : string) : RequestContext :=
  {| current_task := None; message := Some (user_message txt);
     task_id := "task-1"; context_id := "context-1" |}.

(** A runner whose only final step carries no text (a tool call). *)
Definition silent_adk : Adk :=
  {| get_session := fun _ _ => Ok tt;
     create_session := fun _ _ _ => Ok tt;
     run := fun _ _ _ =>
       Ok [ {| is_final_response := Some false; content := Some [ {| text := Some "thinking" |} ] |};
            {| is_final_response := Some true; content := Some [ {| text := None |} ] |} ] |}.

(** A runner that answers with a fixed text. *)
Definition replying_adk (reply : string) : Adk :=
  {| get_session := fun _ _ => Ok tt;
     create_session := fun _ _ _ => Ok tt;
     run := fun _ _ _ =>
       Ok [ {| is_final_response := Some true; content := Some [ {| text := Some reply |} ] |} ] |}.

(** A runner whose model call fails. *)
Definition failing_adk : Adk :=
  {| get_session := fun _ _ => Ok tt;
     create_session := fun _ _ _ => Ok tt;
     run := fun _ _ _ => Raise (mkExn RuntimeError "model unavailable") |}.

(** A manager whose awaited session lookup is cancelled. *)
Definition cancelled_adk : Adk :=
  {| get_session := fun _ _ => Raise (mkExn CancelledError EmptyString);
     create_session := fun _ _ _ => Ok tt;
     run := fun _ _ _ => Ok [] |}.

Definition str_of (v : json) : string :=
  match v with
  | JStr s => s
  | JNull => "None"
  | JBool true => "True"
  | JBool false => "False"
  | other => dumps other
  end.

(** An interpreter without a reachable model server. *)
Definition offline : Runtime :=
  {| rt_loads := loads;
     rt_str := str_of;
     rt_environ := fun _ => None;
     rt_post := fun _ _ _ => Raise (mkExn ConnectionError "connection refused") |}.

(** A network whose Safety agent answers with one chunk of root text. *)
Definition answering (reply : string) : Network :=
  fun _ _ => Ok [ {| chunk_parts := Some [RootText reply] |} ].

(** An SDK whose [get_user_input] fails. *)
Definition broken_input : Sdk :=
  {| new_task := new_task a2a_utils;
     get_user_input := fun _ => Raise (mkExn ValueError "no input");
     completed_task := completed_task a2a_utils;
     new_artifact := new_artifact a2a_utils;
     new_agent_text_message := new_agent_text_message a2a_utils |}.

(** A manager whose session lookup fails and whose session creation fails
    as well. *)
Definition no_store_adk : Adk :=
  {| get_session := fun _ _ => Raise (mkExn ValueError "session not found");
     create_session := fun _ _ _ => Raise (mkExn RuntimeError "store unavailable");
     run := fun _ _ _ =>
       Ok [ {| is_final_response := Some true;
               content := Some [ {| text := Some "ok" |} ] |} ] |}.

(** A manager whose session lookup fails and is repaired by a creation. *)
Definition fresh_session_adk (reply : string) : Adk :=
  {| get_session := fun _ _ => Raise (mkExn ValueError "session not found");
     create_session := fun _ _ _ => Ok tt;
     run := fun _ _ _ =>
       Ok [ {| is_final_response := Some true;
               content := Some [ {| text := Some reply |} ] |} ] |}.


(** An interpreter whose model server answers every request with [resp]. *)
Definition served_by (resp : Response) : Runtime :=
  {| rt_loads := loads;
     rt_str := str_of;
     rt_environ := fun _ => None;
     rt_post := fun _ _ _ => Ok resp |}.

(** The response of a model server that generated [answer]. *)
Definition generated (answer : string) : Response :=
  {| raise_for_status := Ok tt;
     response_json := Ok (JObj [("model", JStr "llama3.1:8b");
                                ("response", JStr answer);
                                ("done", JBool true)]) |}.

(** A response with an error status. *)
Definition server_error : Response :=
  {| raise_for_status := Raise (mkExn HTTPError "500 Server Error");
     response_json := Ok (JObj [("error", JStr "model not found")]) |}.

(** A response whose body is not JSON. *)
Definition html_page : Response :=
  {| raise_for_status := Ok tt;
     response_json := Raise (mkExn RequestsJSONDecodeError "Expecting value") |}.

(** A response whose JSON has no generated text. *)
Definition no_text_response : Response :=
  {| raise_for_status := Ok tt;
     response_json := Ok (JObj [("done", JBool true)]) |}.



(** A network whose agents stream a progress chunk, then a last chunk made
    of the given parts. *)
Definition streaming (last_parts : list ChunkPart) : Network :=
  fun _ _ => Ok [ {| chunk_parts := Some [RootText "working on it"] |};
                  {| chunk_parts := Some last_parts |} ].

(** [s * n] *)
Fixpoint repeat_string (s : string) (n : nat) : string :=
  match n with
  | O => EmptyString
  | S n' => s ++ repeat_string s n'
  end.

Fixpoint leading_brackets (s : string) : nat :=
  match s with
  | String "[" s' => S (leading_brackets s')
  | _ => O
  end.

(** An interpreter whose decoder has a bounded stack, as the one of
    CPython has: on a text that opens more than [limit] nested lists
    [json.loads] gives up with a [RecursionError]. *)
Definition bounded_stack (limit : nat) : Runtime :=
  {| rt_loads := fun s =>
       if (limit <? leading_brackets s)%nat then
         Raise (mkExn RecursionError "maximum recursion depth exceeded")
       else loads s;
     rt_str := str_of;
     rt_environ := fun _ => None;
     rt_post := fun _ _ _ => Raise (mkExn ConnectionError "connection refused") |}.

(** An assessment a language model may give after a confirmation. *)
Definition message_assessment : json :=
  JObj [("riskLevel", JStr "HIGH");
        ("action", JStr "execute_action");
        ("method", JStr "message");
        ("reason", JStr "User confirmed the emergency.")].

End Instances.

(** * Properties *)

(** ** Strings *)

Module PyStrFacts.

Import PyStr.

Lemma prefix_app (w post : string) : prefix w (w ++ post) = true.
Proof.
  induction w as [|c w IH]; simpl.
  - destruct post; reflexivity.
  - destruct (ascii_dec c c) as [_|n]; [exact IH | contradiction].
Qed.

Lemma prefix_split (w t : string) :
  prefix w t = true -> exists post, t = w ++ post.
Proof.
  revert t; induction w as [|c w IH]; intros t H.
  - exists t; reflexivity.
  - destruct t as [|d t]; simpl in H; [discriminate|].
    destruct (ascii_dec c d) as [->|_]; [|discriminate].
    destruct (IH _ H) as [post ->].
    exists post; reflexivity.
Qed.

Lemma str_in_unfold (w t : string) :
  str_in w t =
  prefix w t || match t with
                | EmptyString => false
                | String _ t' => str_in w t'
                end.
Proof. destruct t; reflexivity. Qed.

Lemma str_in_occurs (w t : string) : str_in w t = true -> occurs_in w t.
Proof.
  induction t as [|c t IH]; rewrite str_in_unfold; intros H;
    apply orb_true_iff in H as [H|H]; try discriminate.
  - destruct (prefix_split _ _ H) as [post E].
    exists EmptyString, post; exact E.
  - destruct (prefix_split _ _ H) as [post E].
    exists EmptyString, post; exact E.
  - destruct (IH H) as (pre & post & ->).
    exists (String c pre), post; reflexivity.
Qed.

Lemma occurs_str_in (w t : string) : occurs_in w t -> str_in w t = true.
Proof.
  intros (pre & post & ->).
  induction pre as [|c pre IH].
  - rewrite str_in_unfold; change (EmptyString ++ w ++ post) with (w ++ post).
    rewrite prefix_app; reflexivity.
  - rewrite str_in_unfold.
    change (String c pre ++ w ++ post) with (String c (pre ++ w ++ post)).
    cbv beta iota. rewrite IH; apply orb_true_r.
Qed.

(** Containment as computed is containment as a contiguous run. *)
Lemma str_in_spec (w t : string) : str_in w t = true <-> occurs_in w t.
Proof. split; [apply str_in_occurs | apply occurs_str_in]. Qed.

Lemma str_in_false (w t : string) : str_in w t = false <-> ~ occurs_in w t.
Proof.
  rewrite <- str_in_spec.
  destruct (str_in w t); split; intros H; try reflexivity;
    try discriminate; try (intros E; discriminate E).
  exfalso; apply H; reflexivity.
Qed.

Lemma append_inj_l (p a b : string) : p ++ a = p ++ b -> a = b.
Proof.
  induction p as [|c p IH]; simpl; intros H; [exact H|].
  injection H as H; exact (IH H).
Qed.

End PyStrFacts.

(** ** The keyword classifier *)

Module SafetyFacts.

Import PyStr PyStrFacts Safety Spec.

Lemma scan_first_match (keywords : list string) (t : string) (acc : SafetyResult) :
  scan keywords t acc =
  match first_match keywords t with
  | Some w => detected w
  | None => acc
  end.
Proof.
  induction keywords as [|w rest IH]; simpl; [reflexivity|].
  destruct (str_in w t); [reflexivity | exact IH].
Qed.

Lemma first_match_none (keywords : list string) (t : string) :
  (forall w, In w keywords -> ~ occurs_in w t) ->
  first_match keywords t = None.
Proof.
  induction keywords as [|w rest IH]; simpl; intros H; [reflexivity|].
  destruct (str_in w t) eqn:E.
  - exfalso; apply (H w); [left; reflexivity | apply str_in_spec; exact E].
  - apply IH; intros w' Hin; apply H; right; exact Hin.
Qed.

(** The scan reports the entry of least index that occurs in the text. *)
Lemma first_match_least (keywords : list string) (t : string) :
  forall i w,
    nth_error keywords i = Some w -> occurs_in w t ->
    exists j k,
      j <= i /\ nth_error keywords j = Some k /\ occurs_in k t /\
      (forall j' k', j' < j -> nth_error keywords j' = Some k' -> ~ occurs_in k' t) /\
      first_match keywords t = Some k.
Proof.
  induction keywords as [|x rest IH]; intros i w Hi Hw.
  - destruct i; discriminate.
  - simpl; destruct (str_in x t) eqn:E.
    + exists 0, x; repeat split.
      * lia.
      * apply str_in_spec; exact E.
      * intros j' k' Hlt; lia.
    + destruct i as [|i]; simpl in Hi.
      * injection Hi as ->.
        apply str_in_spec in Hw; congruence.
      * destruct (IH i w Hi Hw) as (j & k & Hle & Hj & Hk & Hmin & Hfm).
        exists (S j), k; repeat split; try assumption; [lia|].
        intros [|j'] k' Hlt Hn; simpl in Hn.
        -- injection Hn as <-; apply str_in_false; exact E.
        -- apply (Hmin j' k'); [lia | exact Hn].
Qed.

Lemma first_match_in (keywords : list string) (t k : string) :
  first_match keywords t = Some k -> In k keywords /\ occurs_in k t.
Proof.
  induction keywords as [|x rest IH]; simpl; [discriminate|].
  destruct (str_in x t) eqn:E; intros H.
  - injection H as <-; split; [left; reflexivity | apply str_in_spec; exact E].
  - destruct (IH H) as [Hin Hocc]; split; [right; exact Hin | exact Hocc].
Qed.

Lemma analyze_safety_first_match (text : string) :
  analyze_safety text =
  match first_match crisis_keywords (lower text) with
  | Some w => detected w
  | None => stable
  end.
Proof. unfold analyze_safety; apply scan_first_match. Qed.

Lemma analyze_safety_no_crisis (text : string) :
  (forall w, In w crisis_keywords -> ~ occurs_in w (lower text)) ->
  analyze_safety text = stable.
Proof.
  intros H; rewrite analyze_safety_first_match, (first_match_none _ _ H).
  reflexivity.
Qed.

(** A lexicon checked entry by entry misses the text. *)
Lemma none_occurs (keywords : list string) (t : string) :
  forallb (fun w => negb (str_in w t)) keywords = true ->
  forall w, In w keywords -> ~ occurs_in w t.
Proof.
  intros H w Hin.
  rewrite forallb_forall in H.
  apply str_in_false, negb_true_iff, H, Hin.
Qed.

Lemma detected_inj (a b : string) : detected a = detected b -> a = b.
Proof.
  intros H.
  assert (E : reason (detected a) = reason (detected b)) by (rewrite H; reflexivity).
  exact (append_inj_l _ _ _ E).
Qed.

Lemma crisis_keywords_nodup : NoDup crisis_keywords.
Proof.
  unfold crisis_keywords.
  repeat (constructor; [simpl; intuition discriminate|]).
  constructor.
Qed.

(** C2: every utterance whose lowercased text contains a crisis keyword gets
    the HIGH / confirm_emergency outcome: [analyze_safety] returns a verdict
    that is not safe, whose reason names a crisis keyword found in the text.
    The function takes no session, so nothing pending can change this. *)
Theorem crisis_keyword_is_high (text w : string) :
  In w crisis_keywords ->
  occurs_in w (lower text) ->
  exists k,
    In k crisis_keywords /\ occurs_in k (lower text) /\
    analyze_safety text = detected k /\
    is_safe (analyze_safety text) = false /\
    reason (analyze_safety text) = "Detected crisis keyword: " ++ k /\
    verdict_level (analyze_safety text) = (HIGH, confirm_emergency).
Proof.
  intros Hin Hocc.
  destruct (In_nth_error _ _ Hin) as [i Hi].
  destruct (first_match_least _ _ i w Hi Hocc) as (j & k & _ & _ & _ & _ & Hfm).
  destruct (first_match_in _ _ _ Hfm) as [Hk Hkocc].
  exists k; rewrite analyze_safety_first_match, Hfm.
  repeat split; assumption.
Qed.

Lemma crisis_keyword_is_high_witness :
  exists k,
    In k crisis_keywords /\
    occurs_in k (lower "I think I fell down and I am in a lot of pain.") /\
    analyze_safety "I think I fell down and I am in a lot of pain." = detected k /\
    is_safe (analyze_safety "I think I fell down and I am in a lot of pain.") = false /\
    reason (analyze_safety "I think I fell down and I am in a lot of pain.")
      = "Detected crisis keyword: " ++ k /\
    verdict_level (analyze_safety "I think I fell down and I am in a lot of pain.")
      = (HIGH, confirm_emergency).
Proof.
  apply (crisis_keyword_is_high
           "I think I fell down and I am in a lot of pain." "fell").
  - simpl; tauto.
  - apply str_in_spec; reflexivity.
Defined.

(** C3: an utterance whose lowercased text contains no crisis keyword and no
    distress keyword gets the LOW / continue_calm outcome: the verdict is
    safe, its reason is [User appears stable.] and its suggestion is empty. *)
Theorem no_keyword_is_low (distress : list string) (text : string) :
  (forall w, In w crisis_keywords -> ~ occurs_in w (lower text)) ->
  (forall w, In w distress -> ~ occurs_in w (lower text)) ->
  analyze_safety text = stable /\
  is_safe (analyze_safety text) = true /\
  reason (analyze_safety text) = "User appears stable." /\
  response_suggestion (analyze_safety text) = EmptyString /\
  verdict_level (analyze_safety text) = (LOW, continue_calm) /\
  spec_classify distress text = (LOW, continue_calm).
Proof.
  intros Hc Hd.
  rewrite (analyze_safety_no_crisis _ Hc).
  unfold spec_classify.
  rewrite (first_match_none _ _ Hc), (first_match_none _ _ Hd).
  repeat split.
Qed.

Lemma no_keyword_is_low_witness :
  analyze_safety "I am planning to visit my grandson tomorrow." = stable /\
  is_safe (analyze_safety "I am planning to visit my grandson tomorrow.") = true /\
  reason (analyze_safety "I am planning to visit my grandson tomorrow.")
    = "User appears stable." /\
  response_suggestion (analyze_safety "I am planning to visit my grandson tomorrow.")
    = EmptyString /\
  verdict_level (analyze_safety "I am planning to visit my grandson tomorrow.")
    = (LOW, continue_calm) /\
  spec_classify distress_terms "I am planning to visit my grandson tomorrow."
    = (LOW, continue_calm).
Proof.
  apply (no_keyword_is_low distress_terms
           "I am planning to visit my grandson tomorrow.").
  - apply none_occurs; vm_compute; reflexivity.
  - apply none_occurs; vm_compute; reflexivity.
Defined.

(** C4 (as the code has it): an utterance with a distress term and no crisis
    keyword is not upgraded by [analyze_safety]: it gets the same stable
    verdict as any text without a crisis keyword, the LOW row, where the
    spec's classification gives MEDIUM / offer_support. *)
Theorem distress_keyword_not_upgraded (distress : list string) (text d : string) :
  (forall w, In w crisis_keywords -> ~ occurs_in w (lower text)) ->
  In d distress ->
  occurs_in d (lower text) ->
  analyze_safety text = stable /\
  verdict_level (analyze_safety text) = (LOW, continue_calm) /\
  spec_classify distress text = (MEDIUM, offer_support).
Proof.
  intros Hc Hin Hocc.
  rewrite (analyze_safety_no_crisis _ Hc).
  unfold spec_classify; rewrite (first_match_none _ _ Hc).
  destruct (In_nth_error _ _ Hin) as [i Hi].
  destruct (first_match_least _ _ i d Hi Hocc) as (j & k & _ & _ & _ & _ & ->).
  repeat split.
Qed.

Lemma distress_keyword_not_upgraded_witness :
  analyze_safety "I have been so lonely since Martha passed." = stable /\
  verdict_level (analyze_safety "I have been so lonely since Martha passed.")
    = (LOW, continue_calm) /\
  spec_classify distress_terms "I have been so lonely since Martha passed."
    = (MEDIUM, offer_support).
Proof.
  apply (distress_keyword_not_upgraded distress_terms
           "I have been so lonely since Martha passed." "lonely").
  - apply none_occurs; vm_compute; reflexivity.
  - simpl; tauto.
  - apply str_in_spec; reflexivity.
Defined.

(** C4, counterexample: a text with sadness, loneliness and confusion terms
    and no crisis keyword.  The spec's classification is MEDIUM /
    offer_support; [analyze_safety] returns the stable verdict, the LOW row. *)
Lemma distress_stays_low :
  first_match crisis_keywords (lower "I feel sad, lonely and confused.") = None /\
  first_match distress_terms (lower "I feel sad, lonely and confused.") = Some "sad" /\
  spec_classify distress_terms "I feel sad, lonely and confused."
    = (MEDIUM, offer_support) /\
  analyze_safety "I feel sad, lonely and confused." = stable /\
  verdict_level (analyze_safety "I feel sad, lonely and confused.")
    = (LOW, continue_calm) /\
  verdict_level (analyze_safety "I feel sad, lonely and confused.")
    <> (MEDIUM, offer_support).
Proof.
  repeat split; try reflexivity.
  vm_compute; discriminate.
Qed.

(** C8: when two or more crisis keywords occur in the lowercased text, the
    keyword reported is the one of least index in the lexicon among those
    that occur; the scan stops there, so a keyword declared later is never
    the one reported, wherever it stands in the utterance. *)
Theorem first_lexicon_match_wins (text : string) (i1 i2 : nat) (w1 w2 : string) :
  i1 < i2 ->
  nth_error crisis_keywords i1 = Some w1 ->
  nth_error crisis_keywords i2 = Some w2 ->
  occurs_in w1 (lower text) ->
  occurs_in w2 (lower text) ->
  exists j k,
    j <= i1 /\ nth_error crisis_keywords j = Some k /\
    occurs_in k (lower text) /\
    (forall j' k', j' < j -> nth_error crisis_keywords j' = Some k' ->
                   ~ occurs_in k' (lower text)) /\
    analyze_safety text = detected k /\
    analyze_safety text <> detected w2.
Proof.
  intros Hlt H1 H2 O1 O2.
  destruct (first_match_least _ _ i1 w1 H1 O1) as (j & k & Hle & Hj & Hk & Hmin & Hfm).
  exists j, k; rewrite analyze_safety_first_match, Hfm.
  repeat split; try assumption.
  intros E; apply detected_inj in E; subst w2.
  assert (Hlen : j < List.length crisis_keywords)
    by (apply nth_error_Some; rewrite Hj; discriminate).
  pose proof (proj1 (NoDup_nth_error crisis_keywords) crisis_keywords_nodup
                j i2 Hlen) as Heq.
  rewrite Hj, H2 in Heq; specialize (Heq eq_refl); lia.
Qed.

Lemma first_lexicon_match_wins_witness :
  exists j k,
    j <= 1 /\ nth_error crisis_keywords j = Some k /\
    occurs_in k (lower "Help me, I fell") /\
    (forall j' k', j' < j -> nth_error crisis_keywords j' = Some k' ->
                   ~ occurs_in k' (lower "Help me, I fell")) /\
    analyze_safety "Help me, I fell" = detected k /\
    analyze_safety "Help me, I fell" <> detected "help me".
Proof.
  apply (first_lexicon_match_wins "Help me, I fell" 1 7 "fell" "help me").
  - lia.
  - reflexivity.
  - reflexivity.
  - apply str_in_spec; reflexivity.
  - apply str_in_spec; reflexivity.
Defined.

(** C10 (as the code has it): a crisis keyword inside a longer word makes
    the verdict not safe, and the reason names the first lexicon keyword
    contained in the text: the occurring entry of least index in the
    lexicon, at or before the keyword, which is the keyword itself when no
    entry declared before it occurs as well. *)
Theorem substring_match_is_unsafe (text w : string) (i : nat) :
  nth_error crisis_keywords i = Some w ->
  inside_longer_word w (lower text) ->
  is_safe (analyze_safety text) = false /\
  exists j k,
    j <= i /\
    nth_error crisis_keywords j = Some k /\
    occurs_in k (lower text) /\
    (forall j' k', j' < j -> nth_error crisis_keywords j' = Some k' ->
                   ~ occurs_in k' (lower text)) /\
    analyze_safety text = detected k /\
    reason (analyze_safety text) = "Detected crisis keyword: " ++ k /\
    ((forall j' k', j' < i -> nth_error crisis_keywords j' = Some k' ->
                    ~ occurs_in k' (lower text)) ->
     k = w).
Proof.
  intros Hi (pre & post & Et & _).
  assert (Hocc : occurs_in w (lower text)) by (exists pre, post; exact Et).
  destruct (first_match_least _ _ i w Hi Hocc) as (j & k & Hle & Hj & Hk & Hmin & Hfm).
  rewrite analyze_safety_first_match, Hfm.
  split; [reflexivity|].
  exists j, k; repeat split; try assumption.
  intros Hnone.
  destruct (Nat.eq_dec j i) as [->|Hne]; [congruence|].
  exfalso; apply (Hnone j k); [lia | exact Hj | exact Hk].
Qed.

Lemma substring_match_is_unsafe_witness :
  is_safe (analyze_safety "We walked to the waterfall.") = false /\
  exists j k,
    j <= 0 /\
    nth_error crisis_keywords j = Some k /\
    occurs_in k (lower "We walked to the waterfall.") /\
    (forall j' k', j' < j -> nth_error crisis_keywords j' = Some k' ->
                   ~ occurs_in k' (lower "We walked to the waterfall.")) /\
    analyze_safety "We walked to the waterfall." = detected k /\
    reason (analyze_safety "We walked to the waterfall.")
    = "Detected crisis keyword: " ++ k /\
    ((forall j' k', j' < 0 -> nth_error crisis_keywords j' = Some k' ->
                    ~ occurs_in k' (lower "We walked to the waterfall.")) ->
     k = "fall").
Proof.
  apply (substring_match_is_unsafe "We walked to the waterfall." "fall" 0).
  - reflexivity.
  - exists "we walked to the water", "."; split; reflexivity.
Defined.

(** C10, counterexample: [blood] stands inside the longer word
    [bloodshed], yet the reason names [fall], found in [waterfall], because
    [fall] is declared first. *)
Lemma substring_match_reports_earlier_keyword :
  In "blood" crisis_keywords /\
  inside_longer_word "blood" (lower "Bloodshed by the waterfall") /\
  analyze_safety "Bloodshed by the waterfall" = detected "fall" /\
  reason (analyze_safety "Bloodshed by the waterfall")
    <> "Detected crisis keyword: blood".
Proof.
  repeat split.
  - simpl; tauto.
  - exists EmptyString, "shed by the waterfall"; split; reflexivity.
  - vm_compute; discriminate.
Qed.

End SafetyFacts.

(** ** The executors *)

Module ExecutorFacts.

Import PyStr Py Json A2A Env Instances.

Lemma emitted_app (q l : list Event) : emitted q (q ++ l) = l.
Proof.
  unfold emitted; induction q as [|ev q IH]; simpl; [reflexivity | exact IH].
Qed.

Lemma emitted_self (q : list Event) : emitted q q = [].
Proof.
  rewrite <- (app_nil_r q) at 2; apply emitted_app.
Qed.

Lemma try_except_caught {A : Type} (body : Exec A) (handler : exn -> Exec A)
      (q q1 : list Event) (e : exn) :
  body q = (q1, Raise e) -> is_Exception e = true ->
  A2A.try_except body handler q = handler e q1.
Proof. intros Hb He; unfold A2A.try_except; rewrite Hb, He; reflexivity. Qed.

Lemma try_except_passed {A : Type} (body : Exec A) (handler : exn -> Exec A)
      (q q1 : list Event) (e : exn) :
  body q = (q1, Raise e) -> is_Exception e = false ->
  A2A.try_except body handler q = (q1, Raise e).
Proof. intros Hb He; unfold A2A.try_except; rewrite Hb, He; reflexivity. Qed.

(** What a [try] block of an executor has queued when it raises: nothing,
    or the task it created, still in state submitted. *)
Definition queued_before_raise (q q1 : list Event) : Prop :=
  q1 = q \/ exists t, q1 = (q ++ [TaskEvent t])%list /\ state t = submitted.

Ltac body_cases sdk ctx :=
  unfold A2A.bind, lift, ret, enqueue_event;
  destruct (current_task ctx);
  [| destruct (new_task sdk (message ctx)) eqn:Hnew ];
  repeat match goal with
    | |- context [match ?r with Ok _ => _ | Raise _ => _ end] =>
        destruct r eqn:?
    end;
  intros H; inversion H; subst; clear H;
  try (left; reflexivity);
  match goal with
  | Hn : new_task sdk _ = Ok ?t |- _ =>
      right; exists t; split; [reflexivity | eauto using new_task_submitted]
  end.

Lemma safety_body_raises (sdk : Sdk) (adk : Safety.Adk) (ctx : RequestContext)
      (q q1 : list Event) (e : exn) :
  SdkContract sdk ->
  Safety.execute_body sdk adk ctx q = (q1, Raise e) ->
  queued_before_raise q q1.
Proof.
  intros C; unfold Safety.execute_body, queued_before_raise.
  body_cases sdk ctx.
Qed.

Lemma conversation_body_raises (sdk : Sdk) (rt : Runtime) (ctx : RequestContext)
      (q q1 : list Event) (e : exn) :
  SdkContract sdk ->
  Conversation.execute_body sdk rt ctx q = (q1, Raise e) ->
  queued_before_raise q q1.
Proof.
  intros C; unfold Conversation.execute_body, queued_before_raise.
  body_cases sdk ctx.
Qed.

(** The shape shared by both [execute] methods: a [try] block that raises
    an [Exception] after queueing at most a submitted task, and a handler
    that reports the failure. *)
Lemma failure_reported (body : Exec unit) (tid cid : string)
      (msg : exn -> option Message) (q : list Event) (e : exn) :
  (forall q1, body q = (q1, Raise e) -> queued_before_raise q q1) ->
  snd (body q) = Raise e ->
  is_Exception e = true ->
  exists pre,
    A2A.try_except body (fun e => update_status tid cid failed (msg e) true) q
    = ((q ++ pre ++ [TaskStatusUpdateEvent tid cid failed (msg e) true])%list, Ok tt) /\
    forallb (fun ev => negb (is_terminal ev)) pre = true /\
    forallb (fun ev => negb (is_completed ev)) pre = true.
Proof.
  intros Hq Hr He.
  destruct (body q) as [q1 r] eqn:Hb; simpl in Hr; subst r.
  rewrite (try_except_caught _ _ _ _ _ Hb He).
  destruct (Hq q1 eq_refl) as [-> | (t & -> & Ht)].
  - exists []; repeat split.
  - exists [TaskEvent t]; unfold update_status, enqueue_event.
    rewrite <- app_assoc; repeat split; simpl;
      unfold is_terminal, is_completed; simpl; rewrite Ht; reflexivity.
Qed.

(** An exception that is not an [Exception] leaves the [try] statement as
    it entered it: the handler does not run. *)
Lemma signal_passes (body : Exec unit) (handler : exn -> Exec unit)
      (q : list Event) (e : exn) :
  (forall q1, body q = (q1, Raise e) -> queued_before_raise q q1) ->
  snd (body q) = Raise e ->
  is_Exception e = false ->
  snd (A2A.try_except body handler q) = Raise e /\
  filter is_terminal (emitted q (fst (A2A.try_except body handler q))) = [].
Proof.
  intros Hq Hr He.
  destruct (body q) as [q1 r] eqn:Hb; simpl in Hr; subst r.
  rewrite (try_except_passed _ _ _ _ _ Hb He); simpl; split; [reflexivity|].
  destruct (Hq q1 eq_refl) as [-> | (t & -> & Ht)].
  - rewrite emitted_self; reflexivity.
  - rewrite emitted_app; simpl; unfold is_terminal; simpl; rewrite Ht; reflexivity.
Qed.

Lemma one_terminal (q pre : list Event) (ev : Event) :
  forallb (fun x => negb (is_terminal x)) pre = true ->
  is_terminal ev = true ->
  filter is_terminal (emitted q (q ++ pre ++ [ev])) = [ev].
Proof.
  intros Hpre Hev; rewrite emitted_app.
  induction pre as [|x pre IH]; simpl.
  - rewrite Hev; reflexivity.
  - simpl in Hpre; apply andb_true_iff in Hpre as [Hx Hpre].
    apply negb_true_iff in Hx; rewrite Hx; exact (IH Hpre).
Qed.

Lemma none_completed (q pre : list Event) (ev : Event) :
  forallb (fun x => negb (is_completed x)) pre = true ->
  is_completed ev = false ->
  existsb is_completed (emitted q (q ++ pre ++ [ev])) = false.
Proof.
  intros Hpre Hev; rewrite emitted_app.
  induction pre as [|x pre IH]; simpl.
  - rewrite Hev; reflexivity.
  - simpl in Hpre; apply andb_true_iff in Hpre as [Hx Hpre].
    apply negb_true_iff in Hx; rewrite Hx; exact (IH Hpre).
Qed.

(** The contract holds of the helpers used to run the executors. *)
Lemma a2a_utils_contract : SdkContract a2a_utils.
Proof.
  constructor.
  - intros [m|] t; simpl; [|discriminate].
    destruct (negb (truthy (role m))); [discriminate|].
    destruct (parts m); [discriminate|].
    destruct (has_empty_text _); [discriminate|].
    intros H; injection H as <-; reflexivity.
  - intros i c [|a arts] hist t; simpl; [discriminate|].
    intros H; injection H as <-; split; reflexivity.
Qed.

Lemma broken_input_contract : SdkContract broken_input.
Proof.
  constructor.
  - exact (new_task_submitted _ a2a_utils_contract).
  - exact (completed_task_completed _ a2a_utils_contract).
Qed.

(** The event each executor queues from its handler. *)
Definition safety_failed (sdk : Sdk) (ctx : RequestContext) (e : exn) : Event :=
  TaskStatusUpdateEvent (task_id ctx) (context_id ctx) failed
    (Some (new_agent_text_message sdk ("Safety Analysis Failed: " ++ exn_str e)
             (context_id ctx) (task_id ctx)))
    true.

Definition conversation_failed (ctx : RequestContext) : Event :=
  TaskStatusUpdateEvent (task_id ctx) (context_id ctx) failed None true.

(** What [execute] leaves behind after a failure inside its [try] block:
    it returns, the events it queued end with [ev], no event before it is
    terminal, and none is a completed task. *)
Definition fails_with (run : list Event * result unit) (q : list Event)
           (ev : Event) : Prop :=
  snd run = Ok tt /\
  (exists pre, fst run = (q ++ pre ++ [ev])%list /\
               forallb (fun x => negb (is_terminal x)) pre = true) /\
  filter is_terminal (emitted q (fst run)) = [ev] /\
  is_failed ev = true /\
  existsb is_completed (emitted q (fst run)) = false.

Lemma fails_with_intro (run : list Event * result unit) (q pre : list Event)
      (ev : Event) :
  run = ((q ++ pre ++ [ev])%list, Ok tt) ->
  forallb (fun x => negb (is_terminal x)) pre = true ->
  forallb (fun x => negb (is_completed x)) pre = true ->
  is_failed ev = true ->
  fails_with run q ev.
Proof.
  intros -> Ht Hc Hf; unfold fails_with; simpl.
  assert (Hterm : is_terminal ev = true)
    by (unfold is_failed in Hf; unfold is_terminal;
        destruct (state_of ev); try discriminate; reflexivity).
  assert (Hcomp : is_completed ev = false)
    by (unfold is_failed in Hf; unfold is_completed;
        destruct (state_of ev); try discriminate; reflexivity).
  repeat split.
  - exists pre; split; [reflexivity | exact Ht].
  - apply one_terminal; assumption.
  - exact Hf.
  - apply none_completed; assumption.
Qed.

(** C5 (as the code has it): when the processing of a request raises an
    exception that is an instance of [Exception], [execute] of either
    executor returns after queueing exactly one terminal event, a failed
    one, as its last event, and no completed task.  An exception outside
    [Exception] is not handled: [execute] raises it in turn and has queued
    no terminal event. *)
Theorem exception_yields_single_failed_event
        (sdk : Sdk) (ctx : RequestContext) (q : list Event) :
  SdkContract sdk ->
  (forall adk e,
      snd (Safety.execute_body sdk adk ctx q) = Raise e ->
      (is_Exception e = true ->
       fails_with (Safety.execute sdk adk ctx q) q (safety_failed sdk ctx e)) /\
      (is_Exception e = false ->
       snd (Safety.execute sdk adk ctx q) = Raise e /\
       filter is_terminal (emitted q (fst (Safety.execute sdk adk ctx q))) = [])) /\
  (forall rt e,
      snd (Conversation.execute_body sdk rt ctx q) = Raise e ->
      (is_Exception e = true ->
       fails_with (Conversation.execute sdk rt ctx q) q (conversation_failed ctx)) /\
      (is_Exception e = false ->
       snd (Conversation.execute sdk rt ctx q) = Raise e /\
       filter is_terminal (emitted q (fst (Conversation.execute sdk rt ctx q))) = [])).
Proof.
  intros C; split.
  - intros adk e Hr; split; intros He.
    + destruct (failure_reported (Safety.execute_body sdk adk ctx)
                  (task_id ctx) (context_id ctx)
                  (fun e => Some (new_agent_text_message sdk
                                    ("Safety Analysis Failed: " ++ exn_str e)
                                    (context_id ctx) (task_id ctx)))
                  q e) as (pre & Hrun & Ht & Hc); try assumption.
      * intros q1 Hb; exact (safety_body_raises _ _ _ _ _ _ C Hb).
      * apply (fails_with_intro _ q pre _ Hrun Ht Hc); reflexivity.
    + apply signal_passes; try assumption.
      intros q1 Hb; exact (safety_body_raises _ _ _ _ _ _ C Hb).
  - intros rt e Hr; split; intros He.
    + destruct (failure_reported (Conversation.execute_body sdk rt ctx)
                  (task_id ctx) (context_id ctx) (fun _ => None) q e)
        as (pre & Hrun & Ht & Hc); try assumption.
      * intros q1 Hb; exact (conversation_body_raises _ _ _ _ _ _ C Hb).
      * apply (fails_with_intro _ q pre _ Hrun Ht Hc); reflexivity.
    + apply signal_passes; try assumption.
      intros q1 Hb; exact (conversation_body_raises _ _ _ _ _ _ C Hb).
Qed.

Lemma exception_yields_single_failed_event_witness :
  fails_with (Safety.execute a2a_utils failing_adk (request "I fell") []) []
    (safety_failed a2a_utils (request "I fell") (mkExn RuntimeError "model unavailable")) /\
  fails_with (Conversation.execute broken_input offline (request "hello") []) []
    (conversation_failed (request "hello")).
Proof.
  split.
  - apply (proj1 (exception_yields_single_failed_event
                    a2a_utils (request "I fell") [] a2a_utils_contract)
             failing_adk (mkExn RuntimeError "model unavailable"));
      reflexivity.
  - apply (proj2 (exception_yields_single_failed_event
                    broken_input (request "hello") [] broken_input_contract)
             offline (mkExn ValueError "no input"));
      reflexivity.
Defined.

(** C5, counterexample: the session lookup awaited by [process_message] is
    cancelled.  [CancelledError] is not an [Exception], so neither [try]
    statement handles it: [execute] raises, and the queue holds the
    submitted task and no terminal event. *)
Lemma cancellation_escapes_execute :
  snd (Safety.execute_body a2a_utils cancelled_adk (request "I fell") [])
    = Raise (mkExn CancelledError EmptyString) /\
  snd (Safety.execute a2a_utils cancelled_adk (request "I fell") [])
    = Raise (mkExn CancelledError EmptyString) /\
  map state_of (fst (Safety.execute a2a_utils cancelled_adk (request "I fell") []))
    = [submitted] /\
  filter is_terminal (fst (Safety.execute a2a_utils cancelled_adk (request "I fell") []))
    = [] /\
  existsb is_failed (fst (Safety.execute a2a_utils cancelled_adk (request "I fell") []))
    = false.
Proof. repeat split. Qed.

(** C6: [cancel] of either executor raises [ServerError] carrying
    [UnsupportedOperationError] for every request and queue; it queues no
    event and never returns. *)
Theorem cancel_always_unsupported (ctx : RequestContext) (q : list Event) :
  Safety.cancel ctx q
    = (q, Raise (mkExn (ServerError UnsupportedOperationError) EmptyString)) /\
  Conversation.cancel ctx q
    = (q, Raise (mkExn (ServerError UnsupportedOperationError) EmptyString)) /\
  returns (snd (Safety.cancel ctx q)) = false /\
  returns (snd (Conversation.cancel ctx q)) = false.
Proof. repeat split. Qed.

End ExecutorFacts.

(** ** The Safety path seen from the orchestrator *)

Module SafetyPathFacts.

Import PyStr Py Json A2A Env Safety Orchestrator Spec Instances.

Lemma process_message_no_text (adk : Adk) (user_id session_id text : string)
      (steps : list Step) :
  Py.try_except (get_session adk user_id session_id)
    (fun _ => create_session adk "safety_service" user_id session_id) = Ok tt ->
  run adk user_id session_id text = Ok steps ->
  fold_left step_text steps (Some EmptyString) = None \/
  fold_left step_text steps (Some EmptyString) = Some EmptyString ->
  process_message adk user_id session_id text = Ok (dumps no_output).
Proof.
  intros Hs Hr Hn; unfold process_message.
  rewrite Hs, Hr; simpl.
  destruct Hn as [-> | ->]; reflexivity.
Qed.

Lemma process_message_reraises (adk : Adk) (user_id session_id text : string)
      (e : exn) :
  Py.try_except (get_session adk user_id session_id)
    (fun _ => create_session adk "safety_service" user_id session_id) = Ok tt ->
  run adk user_id session_id text = Raise e ->
  process_message adk user_id session_id text = Raise e.
Proof.
  intros Hs Hr; unfold process_message.
  rewrite Hs, Hr; simpl.
  destruct (is_Exception e); reflexivity.
Qed.

Lemma check_safety_parse_error (rt : Runtime) (net : Network)
      (user_text reply : string) (result : json) (e : exn) :
  call_a2a_agent net "http://safety-agent:8080" user_text = Ok result ->
  py_get result "response_text" (JStr "{}") = Ok (JStr reply) ->
  rt_loads rt reply = Raise e ->
  is_JSONDecodeError e = true ->
  check_safety rt net user_text = Ok parse_error_verdict.
Proof.
  intros Hc Hg Hl He; unfold check_safety.
  rewrite Hc; simpl; rewrite Hg; simpl; rewrite Hl, He; reflexivity.
Qed.

(** C1, counterexample: the user reports a fall.  When the Safety agent's
    reply is not JSON, [check_safety] answers with a safe verdict; when the
    model gives no output, [process_message] writes a safe verdict, the
    executor completes the task with it, and [check_safety] hands it over.
    Nothing fails, although the keyword classifier itself finds the text
    not safe. *)
Lemma internal_failure_answered_safe :
  rt_loads offline "Sorry, I cannot answer that."
    = Raise (mkExn JSONDecodeError "Expecting value") /\
  check_safety offline (answering "Sorry, I cannot answer that.")
    "I fell and I am bleeding" = Ok parse_error_verdict /\
  says_safe parse_error_verdict = true /\
  process_message silent_adk "default_user" "context-1" "I fell and I am bleeding"
    = Ok (dumps no_output) /\
  map state_of
    (fst (Safety.execute a2a_utils silent_adk (request "I fell and I am bleeding") []))
    = [submitted; completed] /\
  check_safety offline (answering (dumps no_output)) "I fell and I am bleeding"
    = Ok no_output /\
  says_safe no_output = true /\
  is_safe (analyze_safety "I fell and I am bleeding") = false.
Proof. repeat split. Qed.

(** A run that succeeds queues the submitted task, then the completed one
    carrying the reply as its artifact. *)
Example safety_execute_completes :
  map state_of
    (fst (Safety.execute a2a_utils (replying_adk "ok") (request "Good morning") []))
    = [submitted; completed] /\
  snd (Safety.execute a2a_utils (replying_adk "ok") (request "Good morning") [])
    = Ok tt.
Proof. split; reflexivity. Qed.

End SafetyPathFacts.

(** ** More on the keyword classifier *)

Module ClassifierFacts.

Import PyStr PyStrFacts Safety SafetyFacts.

Lemma lower_app (a b : string) : lower (a ++ b) = lower a ++ lower b.
Proof.
  induction a as [|c a IH]; simpl; [reflexivity | rewrite IH; reflexivity].
Qed.

Lemma lower_length (s : string) : String.length (lower s) = String.length s.
Proof.
  induction s as [|c s IH]; simpl; [reflexivity | rewrite IH; reflexivity].
Qed.

Lemma lower_char_idempotent (c : ascii) : lower_char (lower_char c) = lower_char c.
Proof. destruct c as [[] [] [] [] [] [] [] []]; reflexivity. Qed.

Lemma lower_idempotent (s : string) : lower (lower s) = lower s.
Proof.
  induction s as [|c s IH]; simpl;
    [reflexivity | rewrite lower_char_idempotent, IH; reflexivity].
Qed.

Lemma app_length (a b : string) :
  String.length (a ++ b) = String.length a + String.length b.
Proof.
  induction a as [|c a IH]; simpl; [reflexivity | rewrite IH; reflexivity].
Qed.

Lemma app_assoc (a b c : string) : (a ++ b) ++ c = a ++ b ++ c.
Proof.
  induction a as [|x a IH]; simpl; [reflexivity | rewrite IH; reflexivity].
Qed.

Lemma occurs_in_length (w t : string) :
  occurs_in w t -> String.length w <= String.length t.
Proof.
  intros (pre & post & ->); rewrite !app_length; lia.
Qed.

Lemma occurs_in_context (w t pre post : string) :
  occurs_in w t -> occurs_in w (pre ++ t ++ post).
Proof.
  intros (a & b & ->).
  exists (pre ++ a), (b ++ post).
  rewrite !app_assoc; reflexivity.
Qed.

Lemma unsafe_has_keyword (text : string) :
  is_safe (analyze_safety text) = false ->
  exists k, In k crisis_keywords /\ occurs_in k (lower text).
Proof.
  rewrite analyze_safety_first_match.
  destruct (first_match crisis_keywords (lower text)) as [k|] eqn:E;
    [|discriminate].
  intros _; exists k; exact (first_match_in _ _ _ E).
Qed.

Lemma keyword_is_unsafe (text k : string) :
  In k crisis_keywords -> occurs_in k (lower text) ->
  is_safe (analyze_safety text) = false.
Proof.
  intros Hin Hocc.
  destruct (In_nth_error _ _ Hin) as [i Hi].
  destruct (first_match_least _ _ i k Hi Hocc) as (j & k' & _ & _ & _ & _ & Hfm).
  rewrite analyze_safety_first_match, Hfm; reflexivity.
Qed.

(** X1: text added before or after an utterance never turns a verdict that
    is not safe into a safe one. *)
Theorem unsafe_survives_context (text before after : string) :
  is_safe (analyze_safety text) = false ->
  is_safe (analyze_safety (before ++ text ++ after)) = false.
Proof.
  intros H.
  destruct (unsafe_has_keyword _ H) as (k & Hin & Hocc).
  apply (keyword_is_unsafe _ k Hin).
  rewrite !lower_app; apply occurs_in_context; exact Hocc.
Qed.

Lemma unsafe_survives_context_witness :
  is_safe (analyze_safety ("Well, " ++ "I fell" ++ " but I am fine now")) = false.
Proof.
  apply (unsafe_survives_context "I fell" "Well, " " but I am fine now").
  reflexivity.
Defined.

(** X2: every crisis keyword has at least four characters, so an utterance
    of fewer than four characters always gets the stable verdict. *)
Theorem short_text_is_stable (text : string) :
  String.length text < 4 ->
  analyze_safety text = stable.
Proof.
  intros Hlen; apply analyze_safety_no_crisis; intros w Hin Hocc.
  apply occurs_in_length in Hocc; rewrite lower_length in Hocc.
  assert (Hw : 4 <= String.length w).
  { unfold crisis_keywords in Hin; simpl in Hin.
    repeat (destruct Hin as [<- | Hin]; [simpl; lia|]); contradiction. }
  lia.
Qed.

Lemma short_text_is_stable_witness : analyze_safety "Ow!" = stable.
Proof. apply (short_text_is_stable "Ow!"); simpl; lia. Defined.

(** X3: the verdict does not depend on letter case: an utterance and its
    lowercased form get the same verdict. *)
Theorem verdict_ignores_case (text : string) :
  analyze_safety (lower text) = analyze_safety text.
Proof.
  unfold analyze_safety; rewrite lower_idempotent; reflexivity.
Qed.

End ClassifierFacts.

(** ** More on the ADK manager *)

Module ManagerFacts.

Import PyStr Py Json Safety Instances.

(** A step that does not overwrite [response_text]: it is not a final
    response. *)
Definition not_final (s : Step) : Prop := is_final_response s <> Some true.

Lemma step_text_not_final (r : option string) (s : Step) :
  not_final s -> step_text r s = r.
Proof.
  unfold not_final, step_text; intros H.
  destruct (is_final_response s) as [[|]|]; try reflexivity.
  exfalso; apply H; reflexivity.
Qed.

Lemma fold_not_final (steps : list Step) (r : option string) :
  Forall not_final steps -> fold_left step_text steps r = r.
Proof.
  revert r; induction steps as [|s steps IH]; intros r H; simpl; [reflexivity|].
  inversion H as [|? ? Hs Hrest]; subst.
  rewrite (step_text_not_final _ _ Hs); exact (IH _ Hrest).
Qed.

Lemma fold_last_final (before after : list Step) (s : Step) (r : option string) :
  Forall not_final after ->
  fold_left step_text (before ++ s :: after)%list r
  = step_text (fold_left step_text before r) s.
Proof.
  intros H; rewrite fold_left_app; simpl; exact (fold_not_final _ _ H).
Qed.



(** X6: a failed session lookup is repaired by creating the session, and
    the message is then processed as if the session had been there; when
    the creation fails too, [process_message] raises the creation error and
    the outcome of the runner plays no part. *)
Theorem session_lookup_failure
        (adk : Adk) (user_id session_id text : string) (e : exn) :
  get_session adk user_id session_id = Raise e ->
  is_Exception e = true ->
  (create_session adk "safety_service" user_id session_id = Ok tt ->
   process_message adk user_id session_id text
   = process_message
       {| get_session := fun _ _ => Ok tt;
          create_session := create_session adk;
          run := run adk |}
       user_id session_id text) /\
  (forall e',
      create_session adk "safety_service" user_id session_id = Raise e' ->
      process_message adk user_id session_id text = Raise e').
Proof.
  intros Hg He; unfold process_message; rewrite Hg; simpl; rewrite He.
  split.
  - intros ->; reflexivity.
  - intros e' ->; reflexivity.
Qed.

Lemma session_lookup_failure_witness :
  process_message (fresh_session_adk "ok") "default_user" "context-1" "hello" = Ok "ok" /\
  process_message no_store_adk "default_user" "context-1" "hello"
  = Raise (mkExn RuntimeError "store unavailable").
Proof.
  split.
  - rewrite (proj1 (session_lookup_failure (fresh_session_adk "ok")
                      "default_user" "context-1" "hello"
                      (mkExn ValueError "session not found") eq_refl eq_refl) eq_refl).
    reflexivity.
  - apply (proj2 (session_lookup_failure no_store_adk
                    "default_user" "context-1" "hello"
                    (mkExn ValueError "session not found") eq_refl eq_refl)).
    reflexivity.
Defined.

(** X7: [process_message] never returns the empty string: an empty or
    missing reply of the model is replaced by the JSON fallback text. *)
Theorem reply_never_empty (adk : Adk) (user_id session_id text reply : string) :
  process_message adk user_id session_id text = Ok reply ->
  reply <> EmptyString.
Proof.
  unfold process_message.
  destruct (Py.try_except _ _) as [[]|e]; simpl; [|discriminate].
  destruct (run adk user_id session_id text) as [steps|e]; simpl.
  - destruct (fold_left step_text steps (Some EmptyString)) as [[|c s]|];
      intros H; injection H as <-; discriminate.
  - destruct (is_Exception e); discriminate.
Qed.

Lemma reply_never_empty_witness :
  dumps no_output <> EmptyString /\
  process_message silent_adk "default_user" "context-1" "hello" = Ok (dumps no_output).
Proof.
  split; [|reflexivity].
  apply (reply_never_empty silent_adk "default_user" "context-1" "hello").
  reflexivity.
Defined.

End ManagerFacts.

(** ** More on the conversation agent *)

Module ConversationFacts.

Import PyStr Py Json Env Conversation Instances.

Definition generic_fallback : string :=
  "[Warm Tone] I'm here with you. Tell me more, dear.".

Definition short_default : string := "[Warm Tone] I'm here with you.".

(** The model server gives [resp] whatever is posted. *)
Definition server_answers (rt : Runtime) (resp : Response) : Prop :=
  forall url payload timeout, rt_post rt url payload timeout = Ok resp.

(** Every request to the model server fails with [e]: the post itself
    raises it, or the response has an error status that raises it. *)
Definition server_fails (rt : Runtime) (e : exn) : Prop :=
  forall url payload timeout,
    rt_post rt url payload timeout = Raise e \/
    exists resp, rt_post rt url payload timeout = Ok resp /\
                 raise_for_status resp = Raise e.

Lemma body_text_not_empty (rt : Runtime) (input_json s : string) :
  generate_llm_response_body rt input_json = Ok s -> s <> EmptyString.
Proof.
  unfold generate_llm_response_body, Py.bind.
  repeat match goal with
    | |- context [match ?r with Ok _ => _ | Raise _ => _ end] => destruct r
    end; try discriminate.
  intros H; injection H as <-.
  match goal with |- context [truthy ?x] => destruct x end; simpl; discriminate.
Qed.

(** X8: [generate_llm_response] never raises an [Exception] and never
    returns the empty string: whatever the payload, the decoder and the
    model server do, the caller gets a text to send, or a signal that is not
    an [Exception]. *)
Theorem response_always_given (rt : Runtime) (input_json : string) :
  match generate_llm_response rt input_json with
  | Ok s => s <> EmptyString
  | Raise e => is_Exception e = false
  end.
Proof.
  unfold generate_llm_response.
  destruct (generate_llm_response_body rt input_json) as [s|e] eqn:E.
  - exact (body_text_not_empty _ _ _ E).
  - destruct (is_JSONDecodeError e); [discriminate|].
    destruct (is_Exception e) eqn:He; [discriminate | exact He].
Qed.

(** X9: a payload that is valid JSON but not an object (a list, a number, a
    string) is answered with the generic fallback, not with the echo of the
    payload and not through the model. *)
Theorem non_object_payload (rt : Runtime) (input_json : string) (v : json) :
  rt_loads rt input_json = Ok v ->
  (forall d, v <> JObj d) ->
  generate_llm_response rt input_json = Ok generic_fallback.
Proof.
  intros Hl Hv; unfold generate_llm_response, generate_llm_response_body.
  rewrite Hl; simpl.
  destruct v; try reflexivity.
  exfalso; exact (Hv _ eq_refl).
Qed.

Lemma non_object_payload_witness :
  generate_llm_response (served_by (generated "Hello dear")) "[1, 2]"
  = Ok generic_fallback.
Proof.
  apply (non_object_payload (served_by (generated "Hello dear")) "[1, 2]"
           (JArr [JNum "1"; JNum "2"])).
  - reflexivity.
  - intros d; discriminate.
Defined.

Lemma object_fields (d : list (string * json)) (k : string) (default : json) :
  exists v, py_get (JObj d) k default = Ok v.
Proof.
  simpl; destruct (dict_lookup k d) as [v|]; eauto.
Qed.

Ltac open_body rt input_json Hl d :=
  unfold generate_llm_response, generate_llm_response_body;
  rewrite Hl;
  let u := fresh "user_text" in
  let m := fresh "memory" in
  let Hu := fresh "Hu" in
  let Hm := fresh "Hm" in
  destruct (object_fields d "user_text" (JStr EmptyString)) as [u Hu];
  destruct (object_fields d "memory_context" (JStr EmptyString)) as [m Hm];
  cbv beta iota delta [Py.bind]; rewrite Hu, Hm; cbv beta iota.

(** X10: when the payload is a JSON object and the model server cannot be
    used (the post raises, or the status is an error), the answer is the
    generic fallback. *)
Theorem server_failure_fallback
        (rt : Runtime) (input_json : string) (d : list (string * json)) (e : exn) :
  rt_loads rt input_json = Ok (JObj d) ->
  server_fails rt e ->
  is_Exception e = true ->
  is_JSONDecodeError e = false ->
  generate_llm_response rt input_json = Ok generic_fallback.
Proof.
  intros Hl Hs He Hj.
  open_body rt input_json Hl d.
  match goal with
  | |- context [rt_post rt ?u ?p ?t] =>
      destruct (Hs u p t) as [Hp | (resp & Hp & Hst)]; rewrite Hp
  end.
  - rewrite Hj, He; reflexivity.
  - cbv beta iota; rewrite Hst, Hj, He; reflexivity.
Qed.

Lemma server_failure_fallback_witness :
  generate_llm_response offline (dumps (JObj [("user_text", JStr "hello")]))
  = Ok generic_fallback /\
  generate_llm_response (served_by server_error)
    (dumps (JObj [("user_text", JStr "hello")]))
  = Ok generic_fallback.
Proof.
  split.
  - apply (server_failure_fallback offline _ [("user_text", JStr "hello")]
             (mkExn ConnectionError "connection refused")).
    + reflexivity.
    + intros url payload timeout; left; reflexivity.
    + reflexivity.
    + reflexivity.
  - apply (server_failure_fallback (served_by server_error) _
             [("user_text", JStr "hello")]
             (mkExn HTTPError "500 Server Error")).
    + reflexivity.
    + intros url payload timeout; right; exists server_error; split; reflexivity.
    + reflexivity.
    + reflexivity.
Defined.

(** X11: when the body of the model server's response cannot be decoded
    and the error is a [json.JSONDecodeError], the first handler takes it:
    the user is answered with the echo of the whole payload, JSON syntax
    included, although the payload itself was a valid object. *)
Theorem undecodable_reply_echoes_payload
        (rt : Runtime) (input_json : string) (d : list (string * json))
        (resp : Response) (e : exn) :
  rt_loads rt input_json = Ok (JObj d) ->
  server_answers rt resp ->
  raise_for_status resp = Ok tt ->
  response_json resp = Raise e ->
  is_JSONDecodeError e = true ->
  generate_llm_response rt input_json
  = Ok ("[Warm Tone] I hear you saying: " ++ input_json).
Proof.
  intros Hl Hs Hst Hr He.
  open_body rt input_json Hl d.
  rewrite Hs; cbv beta iota; rewrite Hst; cbv beta iota; rewrite Hr, He.
  reflexivity.
Qed.

Lemma undecodable_reply_echoes_payload_witness :
  generate_llm_response (served_by html_page)
    (dumps (JObj [("user_text", JStr "hello")]))
  = Ok ("[Warm Tone] I hear you saying: "
          ++ dumps (JObj [("user_text", JStr "hello")])).
Proof.
  apply (undecodable_reply_echoes_payload (served_by html_page) _
           [("user_text", JStr "hello")] html_page
           (mkExn RequestsJSONDecodeError "Expecting value")).
  - reflexivity.
  - intros url payload timeout; reflexivity.
  - reflexivity.
  - reflexivity.
  - reflexivity.
Defined.

(** X12: when the model server answers with a JSON object, the reply is its
    [response] text with the surrounding white space removed; when that
    text is empty or blank, or the object has no [response], the reply is
    the short default; when [response] is not a string, it is the generic
    fallback. *)
Theorem served_reply
        (rt : Runtime) (input_json : string) (d body : list (string * json))
        (resp : Response) :
  rt_loads rt input_json = Ok (JObj d) ->
  server_answers rt resp ->
  raise_for_status resp = Ok tt ->
  response_json resp = Ok (JObj body) ->
  generate_llm_response rt input_json
  = Ok match dict_lookup "response" body with
       | Some (JStr answer) =>
           if truthy (strip answer) then strip answer else short_default
       | Some _ => generic_fallback
       | None => short_default
       end.
Proof.
  intros Hl Hs Hst Hr.
  open_body rt input_json Hl d.
  rewrite Hs; cbv beta iota; rewrite Hst; cbv beta iota; rewrite Hr.
  cbv beta iota; unfold py_get.
  destruct (dict_lookup "response" body) as [[]|]; reflexivity.
Qed.

Lemma served_reply_witness :
  generate_llm_response (served_by (generated "  That sounds lovely, dear. "))
    (dumps (JObj [("user_text", JStr "hello")]))
  = Ok "That sounds lovely, dear." /\
  generate_llm_response (served_by (generated "   "))
    (dumps (JObj [("user_text", JStr "hello")]))
  = Ok short_default /\
  generate_llm_response (served_by no_text_response)
    (dumps (JObj [("user_text", JStr "hello")]))
  = Ok short_default.
Proof.
  split; [|split].
  - rewrite (served_reply (served_by (generated "  That sounds lovely, dear. ")) _
               [("user_text", JStr "hello")]
               [("model", JStr "llama3.1:8b");
                ("response", JStr "  That sounds lovely, dear. ");
                ("done", JBool true)]
               (generated "  That sounds lovely, dear. "));
      try reflexivity.
    intros url payload timeout; reflexivity.
  - rewrite (served_reply (served_by (generated "   ")) _
               [("user_text", JStr "hello")]
               [("model", JStr "llama3.1:8b"); ("response", JStr "   ");
                ("done", JBool true)]
               (generated "   "));
      try reflexivity.
    intros url payload timeout; reflexivity.
  - rewrite (served_reply (served_by no_text_response) _
               [("user_text", JStr "hello")] [("done", JBool true)]
               no_text_response);
      try reflexivity.
    intros url payload timeout; reflexivity.
Defined.

(** A field of the payload as the agent reads it: the empty string when
    the key is missing. *)
Definition field (k : string) (d : list (string * json)) : json :=
  match dict_lookup k d with
  | Some v => v
  | None => JStr EmptyString
  end.

(** X4: what the agent asks of the model server depends on two fields of
    the payload only.  It posts, with a timeout of 30 seconds, to
    [/api/generate] under the configured base address (by default
    [http://localhost:11434]) a request for the configured model (by
    default [llama3.1:8b]), not streamed, whose prompt is built from
    [user_text] and [memory_context], each empty when missing; the answer
    to that one request decides the reply. *)
Theorem request_sent
        (rt : Runtime) (input_json : string) (d body : list (string * json))
        (resp : Response) (answer : string) :
  rt_loads rt input_json = Ok (JObj d) ->
  rt_post rt
    (environ_get rt "OLLAMA_BASE_URL" "http://localhost:11434" ++ "/api/generate")
    (JObj [("model", JStr (environ_get rt "OLLAMA_MODEL" "llama3.1:8b"));
           ("prompt",
            JStr (prompt_of rt (field "user_text" d) (field "memory_context" d)));
           ("stream", JBool false)])
    30
  = Ok resp ->
  raise_for_status resp = Ok tt ->
  response_json resp = Ok (JObj body) ->
  dict_lookup "response" body = Some (JStr answer) ->
  truthy (strip answer) = true ->
  generate_llm_response rt input_json = Ok (strip answer).
Proof.
  intros Hl Hp Hst Hr Ha Ht.
  unfold generate_llm_response, generate_llm_response_body.
  rewrite Hl; cbv beta iota delta [Py.bind].
  unfold py_get at 1 2; fold (field "user_text" d); fold (field "memory_context" d).
  unfold field in *.
  destruct (dict_lookup "user_text" d) as [u|];
    destruct (dict_lookup "memory_context" d) as [m|];
    cbv beta iota; rewrite Hp; cbv beta iota; rewrite Hst; cbv beta iota;
    rewrite Hr; cbv beta iota; unfold py_get; rewrite Ha; simpl; rewrite Ht;
    reflexivity.
Qed.

Lemma request_sent_witness :
  generate_llm_response (served_by (generated "Good morning, dear."))
    (dumps (JObj [("user_text", JStr "Good morning"); ("mood", JStr "calm")]))
  = Ok (strip "Good morning, dear.").
Proof.
  apply (request_sent (served_by (generated "Good morning, dear."))
           (dumps (JObj [("user_text", JStr "Good morning"); ("mood", JStr "calm")]))
           [("user_text", JStr "Good morning"); ("mood", JStr "calm")]
           [("model", JStr "llama3.1:8b"); ("response", JStr "Good morning, dear.");
            ("done", JBool true)]
           (generated "Good morning, dear.") "Good morning, dear.").
  - reflexivity.
  - reflexivity.
  - reflexivity.
  - reflexivity.
  - reflexivity.
  - reflexivity.
Defined.

(** C9 (as the code has it): when [json.loads] fails on the payload, the
    agent still answers and raises nothing that is an [Exception].  A
    [json.JSONDecodeError] makes it take the whole payload as raw text and
    echo it; any other [Exception] of the decoder (a [RecursionError] on
    deeply nested brackets) makes it give the generic fallback; a signal
    outside [Exception] is raised to the caller. *)
Theorem payload_decoding_failure_recovered
        (rt : Runtime) (input_json : string) (e : exn) :
  rt_loads rt input_json = Raise e ->
  (is_JSONDecodeError e = true ->
   generate_llm_response rt input_json
   = Ok ("[Warm Tone] I hear you saying: " ++ input_json)) /\
  (is_JSONDecodeError e = false -> is_Exception e = true ->
   generate_llm_response rt input_json = Ok generic_fallback) /\
  (is_Exception e = true ->
   returns (generate_llm_response rt input_json) = true) /\
  (is_JSONDecodeError e = false -> is_Exception e = false ->
   generate_llm_response rt input_json = Raise e).
Proof.
  intros Hl.
  unfold generate_llm_response, generate_llm_response_body.
  rewrite Hl; simpl.
  destruct (is_JSONDecodeError e) eqn:Hj; destruct (is_Exception e) eqn:He;
    repeat split; intros; try discriminate; reflexivity.
Qed.

Lemma payload_decoding_failure_recovered_witness :
  (is_JSONDecodeError (mkExn JSONDecodeError "Expecting value") = true ->
   generate_llm_response offline "I am feeling a bit lonely today."
   = Ok ("[Warm Tone] I hear you saying: " ++ "I am feeling a bit lonely today.")) /\
  (is_JSONDecodeError (mkExn JSONDecodeError "Expecting value") = false ->
   is_Exception (mkExn JSONDecodeError "Expecting value") = true ->
   generate_llm_response offline "I am feeling a bit lonely today."
   = Ok generic_fallback) /\
  (is_Exception (mkExn JSONDecodeError "Expecting value") = true ->
   returns (generate_llm_response offline "I am feeling a bit lonely today.") = true) /\
  (is_JSONDecodeError (mkExn JSONDecodeError "Expecting value") = false ->
   is_Exception (mkExn JSONDecodeError "Expecting value") = false ->
   generate_llm_response offline "I am feeling a bit lonely today."
   = Raise (mkExn JSONDecodeError "Expecting value")).
Proof.
  apply (payload_decoding_failure_recovered offline
           "I am feeling a bit lonely today."
           (mkExn JSONDecodeError "Expecting value")).
  reflexivity.
Defined.

(** C9, counterexample: two thousand opening brackets are not JSON, and
    the decoder gives up on them with a [RecursionError] before it can say
    so.  The agent answers with the generic fallback, not with the echo of
    the payload. *)
Lemma deep_payload_is_not_echoed :
  loads (repeat_string "[" 2000) = Raise (mkExn JSONDecodeError "Expecting value") /\
  rt_loads (bounded_stack 1000) (repeat_string "[" 2000)
  = Raise (mkExn RecursionError "maximum recursion depth exceeded") /\
  generate_llm_response (bounded_stack 1000) (repeat_string "[" 2000)
  = Ok generic_fallback /\
  generate_llm_response (bounded_stack 1000) (repeat_string "[" 2000)
  <> Ok ("[Warm Tone] I hear you saying: " ++ repeat_string "[" 2000).
Proof.
  split; [|split; [|split]].
  - vm_compute; reflexivity.
  - vm_compute; reflexivity.
  - vm_compute; reflexivity.
  - vm_compute; discriminate.
Qed.

End ConversationFacts.

(** ** More on the executors *)

Module ExecutorRunFacts.

Import PyStr Py Json A2A Env Instances ExecutorFacts ConversationFacts.

(** What a [try] block of an executor has queued when it ends normally:
    possibly the task it created, then the completed task. *)
Definition queued_on_success (q q1 : list Event) (done : Task) : Prop :=
  exists pre,
    q1 = (q ++ pre ++ [TaskEvent done])%list /\
    forallb (fun ev => negb (is_terminal ev)) pre = true /\
    state done = completed.

Ltac success_cases sdk ctx :=
  unfold A2A.bind, lift, ret, enqueue_event;
  destruct (current_task ctx);
  [| destruct (new_task sdk (message ctx)) eqn:Hnew ];
  repeat match goal with
    | |- context [match ?r with Ok _ => _ | Raise _ => _ end] =>
        destruct r eqn:?
    end;
  intros H; inversion H; subst; clear H.

Lemma safety_body_succeeds (sdk : Sdk) (adk : Safety.Adk) (ctx : RequestContext)
      (q q1 : list Event) :
  SdkContract sdk ->
  Safety.execute_body sdk adk ctx q = (q1, Ok tt) ->
  exists input reply done,
    get_user_input sdk ctx = Ok input /\
    Safety.process_message adk "default_user" (context_id ctx) input = Ok reply /\
    queued_on_success q q1 done /\
    artifacts done
    = [new_artifact sdk [TextPart reply] "safety_analysis_result"].
Proof.
  intros C; unfold Safety.execute_body, queued_on_success.
  success_cases sdk ctx;
    match goal with
    | Hc : completed_task sdk _ _ _ _ = Ok ?done,
      Hi : get_user_input sdk ctx = Ok ?input,
      Hp : Safety.process_message _ _ _ _ = Ok ?reply |- _ =>
        destruct (completed_task_completed _ C _ _ _ _ _ Hc) as [Hst Harts];
        exists input, reply, done; repeat split; try assumption
    end.
  - exists []; repeat split; assumption.
  - match goal with
    | Hn : new_task sdk _ = Ok ?t |- _ =>
        exists [TaskEvent t]; rewrite <- app_assoc; repeat split; try assumption;
        simpl; unfold is_terminal; simpl;
        rewrite (new_task_submitted _ C _ _ Hn); reflexivity
    end.
Qed.

Lemma conversation_body_succeeds (sdk : Sdk) (rt : Runtime) (ctx : RequestContext)
      (q q1 : list Event) :
  SdkContract sdk ->
  Conversation.execute_body sdk rt ctx q = (q1, Ok tt) ->
  exists input reply done,
    get_user_input sdk ctx = Ok input /\
    Conversation.generate_llm_response rt input = Ok reply /\
    queued_on_success q q1 done /\
    artifacts done = [new_artifact sdk [TextPart reply] "response"].
Proof.
  intros C; unfold Conversation.execute_body, queued_on_success.
  success_cases sdk ctx;
    match goal with
    | Hc : completed_task sdk _ _ _ _ = Ok ?done,
      Hi : get_user_input sdk ctx = Ok ?input,
      Hp : Conversation.generate_llm_response _ _ = Ok ?reply |- _ =>
        destruct (completed_task_completed _ C _ _ _ _ _ Hc) as [Hst Harts];
        exists input, reply, done; repeat split; try assumption
    end.
  - exists []; repeat split; assumption.
  - match goal with
    | Hn : new_task sdk _ = Ok ?t |- _ =>
        exists [TaskEvent t]; rewrite <- app_assoc; repeat split; try assumption;
        simpl; unfold is_terminal; simpl;
        rewrite (new_task_submitted _ C _ _ Hn); reflexivity
    end.
Qed.

(** A run that queued, after [q], events that are not terminal and then
    one terminal event, a completed task or a failed status. *)
Definition single_terminal (q : list Event) (run : list Event * result unit)
  : Prop :=
  exists pre ev,
    fst run = (q ++ pre ++ [ev])%list /\
    forallb (fun x => negb (is_terminal x)) pre = true /\
    (is_completed ev = true \/ is_failed ev = true) /\
    filter is_terminal (emitted q (fst run)) = [ev].

Lemma one_terminal_on_return (body : Exec unit) (tid cid : string)
      (msg : exn -> option Message) (q : list Event) :
  (forall q1 e, body q = (q1, Raise e) -> queued_before_raise q q1) ->
  (forall q1, body q = (q1, Ok tt) -> exists done, queued_on_success q q1 done) ->
  snd (A2A.try_except body (fun e => update_status tid cid failed (msg e) true) q)
  = Ok tt ->
  single_terminal q
    (A2A.try_except body (fun e => update_status tid cid failed (msg e) true) q).
Proof.
  intros Hraise Hok; unfold single_terminal.
  destruct (body q) as [q1 [[]|e]] eqn:Hb.
  - unfold A2A.try_except; rewrite Hb; intros _; simpl.
    destruct (Hok q1 eq_refl) as (done & pre & -> & Hpre & Hst).
    exists pre, (TaskEvent done); repeat split; try assumption.
    + left; unfold is_completed; simpl; rewrite Hst; reflexivity.
    + apply one_terminal; [exact Hpre|].
      unfold is_terminal; simpl; rewrite Hst; reflexivity.
  - destruct (is_Exception e) eqn:He.
    + intros _.
      destruct (failure_reported body tid cid msg q e) as (pre & Hrun & Ht & _);
        try assumption.
      * intros q2 Hq2; rewrite Hb in Hq2; exact (Hraise q2 e Hq2).
      * rewrite Hb; reflexivity.
      * rewrite Hrun; simpl.
        exists pre, (TaskStatusUpdateEvent tid cid failed (msg e) true).
        repeat split; try assumption.
        -- right; reflexivity.
        -- apply one_terminal; [exact Ht | reflexivity].
    + rewrite (try_except_passed _ _ _ _ _ Hb He); simpl; discriminate.
Qed.

(** X13: whenever [execute] of either executor returns, it has queued
    exactly one terminal event, as its last event: the completed task or a
    failed status, never both and never none. *)
Theorem returning_run_has_one_terminal_event
        (sdk : Sdk) (ctx : RequestContext) (q : list Event) :
  SdkContract sdk ->
  (forall adk,
      snd (Safety.execute sdk adk ctx q) = Ok tt ->
      single_terminal q (Safety.execute sdk adk ctx q)) /\
  (forall rt,
      snd (Conversation.execute sdk rt ctx q) = Ok tt ->
      single_terminal q (Conversation.execute sdk rt ctx q)).
Proof.
  intros C; split.
  - intros adk; apply one_terminal_on_return.
    + intros q1 e Hb; exact (safety_body_raises _ _ _ _ _ _ C Hb).
    + intros q1 Hb.
      destruct (safety_body_succeeds _ _ _ _ _ C Hb) as (i & r & done & _ & _ & Hq & _).
      exists done; exact Hq.
  - intros rt; apply one_terminal_on_return.
    + intros q1 e Hb; exact (conversation_body_raises _ _ _ _ _ _ C Hb).
    + intros q1 Hb.
      destruct (conversation_body_succeeds _ _ _ _ _ C Hb)
        as (i & r & done & _ & _ & Hq & _).
      exists done; exact Hq.
Qed.

Lemma returning_run_has_one_terminal_event_witness :
  single_terminal []
    (Safety.execute a2a_utils (replying_adk "ok") (request "Good morning") []) /\
  single_terminal []
    (Conversation.execute a2a_utils offline (request "Good morning") []).
Proof.
  split.
  - apply (proj1 (returning_run_has_one_terminal_event
                    a2a_utils (request "Good morning") [] a2a_utils_contract)
             (replying_adk "ok")).
    reflexivity.
  - apply (proj2 (returning_run_has_one_terminal_event
                    a2a_utils (request "Good morning") [] a2a_utils_contract)
             offline).
    reflexivity.
Defined.

Lemma completed_means_success (body : Exec unit) (tid cid : string)
      (msg : exn -> option Message) (q : list Event) :
  (forall q1 e, body q = (q1, Raise e) -> queued_before_raise q q1) ->
  existsb is_completed
    (emitted q (fst (A2A.try_except body
                       (fun e => update_status tid cid failed (msg e) true) q)))
  = true ->
  exists q1, body q = (q1, Ok tt).
Proof.
  intros Hraise.
  destruct (body q) as [q1 [[]|e]] eqn:Hb; [intros _; exists q1; reflexivity|].
  destruct (is_Exception e) eqn:He.
  - destruct (failure_reported body tid cid msg q e) as (pre & Hrun & _ & Hc);
      try assumption.
    + intros q2 Hq2; rewrite Hb in Hq2; exact (Hraise q2 e Hq2).
    + rewrite Hb; reflexivity.
    + rewrite Hrun; simpl.
      rewrite (none_completed q pre
                 (TaskStatusUpdateEvent tid cid failed (msg e) true) Hc eq_refl).
      discriminate.
  - rewrite (try_except_passed _ _ _ _ _ Hb He); simpl.
    destruct (Hraise q1 e eq_refl) as [-> | (t & -> & Ht)].
    + rewrite emitted_self; discriminate.
    + rewrite emitted_app; simpl; unfold is_completed; simpl; rewrite Ht.
      discriminate.
Qed.

(** X14: when the Safety executor queues a completed task, that task
    carries exactly one artifact, named [safety_analysis_result], whose
    only part is the reply of [process_message] to the request's input,
    asked as user [default_user] in the session named by the request's
    context id. *)
Theorem safety_completed_artifact
        (sdk : Sdk) (adk : Safety.Adk) (ctx : RequestContext) (q : list Event) :
  SdkContract sdk ->
  existsb is_completed (emitted q (fst (Safety.execute sdk adk ctx q))) = true ->
  exists input reply done pre,
    get_user_input sdk ctx = Ok input /\
    Safety.process_message adk "default_user" (context_id ctx) input = Ok reply /\
    Safety.execute sdk adk ctx q = ((q ++ pre ++ [TaskEvent done])%list, Ok tt) /\
    state done = completed /\
    artifacts done = [new_artifact sdk [TextPart reply] "safety_analysis_result"].
Proof.
  intros C Hc.
  destruct (completed_means_success _ _ _ _ q
              (fun q1 e Hb => safety_body_raises _ _ _ _ _ _ C Hb) Hc) as [q1 Hb].
  destruct (safety_body_succeeds _ _ _ _ _ C Hb)
    as (input & reply & done & Hi & Hp & (pre & -> & _ & Hst) & Ha).
  exists input, reply, done, pre; repeat split; try assumption.
  unfold Safety.execute, A2A.try_except; rewrite Hb; reflexivity.
Qed.

Lemma safety_completed_artifact_witness :
  exists input reply done pre,
    get_user_input a2a_utils (request "Good morning") = Ok input /\
    Safety.process_message (replying_adk "ok") "default_user"
      (context_id (request "Good morning")) input = Ok reply /\
    Safety.execute a2a_utils (replying_adk "ok") (request "Good morning") []
    = (([] ++ pre ++ [TaskEvent done])%list, Ok tt) /\
    state done = completed /\
    artifacts done
    = [new_artifact a2a_utils [TextPart reply] "safety_analysis_result"].
Proof.
  apply (safety_completed_artifact a2a_utils (replying_adk "ok")
           (request "Good morning") [] a2a_utils_contract).
  reflexivity.
Defined.

Lemma response_raise_is_signal (rt : Runtime) (input_json : string) (e : exn) :
  Conversation.generate_llm_response rt input_json = Raise e ->
  is_Exception e = false.
Proof.
  unfold Conversation.generate_llm_response.
  destruct (Conversation.generate_llm_response_body rt input_json) as [s|e'];
    [discriminate|].
  destruct (is_JSONDecodeError e'); [discriminate|].
  destruct (is_Exception e') eqn:He; [discriminate|].
  intros H; injection H as <-; exact He.
Qed.

(** The task an executor works on: the one of the request, or the one
    [new_task] made when the request has none. *)
Definition task_in_hand (sdk : Sdk) (ctx : RequestContext) (t : Task) : Prop :=
  current_task ctx = Some t \/
  (current_task ctx = None /\ new_task sdk (message ctx) = Ok t).

(** Where an [Exception] raised by the [try] block of the conversation
    executor comes from: one of the three calls into the SDK that the block
    makes, with the arguments it makes them with. *)
Definition raised_by_sdk (sdk : Sdk) (rt : Runtime) (ctx : RequestContext)
           (e : exn) : Prop :=
  (current_task ctx = None /\ new_task sdk (message ctx) = Raise e) \/
  (exists t, task_in_hand sdk ctx t /\ get_user_input sdk ctx = Raise e) \/
  (exists t input reply,
      task_in_hand sdk ctx t /\
      get_user_input sdk ctx = Ok input /\
      Conversation.generate_llm_response rt input = Ok reply /\
      completed_task sdk (id t) (task_context_id t)
        [new_artifact sdk [TextPart reply] "response"] [message ctx]
      = Raise e).

Lemma conversation_raise_origin
      (sdk : Sdk) (rt : Runtime) (ctx : RequestContext) (q q1 : list Event) (e : exn) :
  Conversation.execute_body sdk rt ctx q = (q1, Raise e) ->
  is_Exception e = true ->
  raised_by_sdk sdk rt ctx e.
Proof.
  unfold Conversation.execute_body, raised_by_sdk, task_in_hand.
  unfold A2A.bind, lift, ret, enqueue_event.
  destruct (current_task ctx) as [t0|] eqn:Hct.
  - destruct (get_user_input sdk ctx) as [input|e1] eqn:Hin.
    + destruct (Conversation.generate_llm_response rt input) as [reply|e2] eqn:Hgen.
      * destruct (completed_task sdk (id t0) (task_context_id t0) _ _)
          as [done|e3] eqn:Hdone; intros H He; inversion H; subst.
        right; right; exists t0, input, reply; auto.
      * intros H He; inversion H; subst.
        apply response_raise_is_signal in Hgen; congruence.
    + intros H He; inversion H; subst.
      right; left; exists t0; auto.
  - destruct (new_task sdk (message ctx)) as [t|e0] eqn:Hnew.
    + destruct (get_user_input sdk ctx) as [input|e1] eqn:Hin.
      * destruct (Conversation.generate_llm_response rt input) as [reply|e2] eqn:Hgen.
        -- destruct (completed_task sdk (id t) (task_context_id t) _ _)
             as [done|e3] eqn:Hdone; intros H He; inversion H; subst.
           right; right; exists t, input, reply; auto.
        -- intros H He; inversion H; subst.
           apply response_raise_is_signal in Hgen; congruence.
      * intros H He; inversion H; subst.
        right; left; exists t; auto.
    + intros H He; inversion H; subst.
      left; auto.
Qed.

(** X15: the conversation task fails only when a helper of the SDK fails:
    if [execute] queues a failed status, then its [try] block raised an
    [Exception] that came out of [new_task], [get_user_input] or
    [completed_task], called as the block calls them.  The payload, the
    decoder and the model server cannot make the task fail. *)
Theorem conversation_fails_only_on_sdk
        (sdk : Sdk) (rt : Runtime) (ctx : RequestContext) (q : list Event) :
  SdkContract sdk ->
  existsb is_failed (emitted q (fst (Conversation.execute sdk rt ctx q))) = true ->
  exists e,
    is_Exception e = true /\
    snd (Conversation.execute_body sdk rt ctx q) = Raise e /\
    raised_by_sdk sdk rt ctx e.
Proof.
  intros C.
  destruct (Conversation.execute_body sdk rt ctx q) as [q1 [[]|e]] eqn:Hb.
  - unfold Conversation.execute, A2A.try_except; rewrite Hb; simpl.
    destruct (conversation_body_succeeds _ _ _ _ _ C Hb)
      as (i & r & done & _ & _ & (pre & -> & Hpre & Hst) & _).
    rewrite emitted_app, existsb_app; simpl.
    unfold is_failed at 2; simpl; rewrite Hst; simpl; rewrite orb_false_r.
    intros Hf; exfalso.
    apply existsb_exists in Hf as (x & Hin & Hx).
    rewrite forallb_forall in Hpre; specialize (Hpre x Hin).
    unfold is_failed in Hx; unfold is_terminal in Hpre.
    destruct (state_of x); discriminate.
  - destruct (is_Exception e) eqn:He.
    + intros _; exists e; repeat split; try assumption.
      exact (conversation_raise_origin _ _ _ _ _ _ Hb He).
    + unfold Conversation.execute.
      rewrite (try_except_passed _ _ _ _ _ Hb He); simpl.
      destruct (conversation_body_raises _ _ _ _ _ _ C Hb) as [-> | (t & -> & Ht)].
      * rewrite emitted_self; discriminate.
      * rewrite emitted_app; simpl; unfold is_failed; simpl; rewrite Ht.
        discriminate.
Qed.

Lemma conversation_fails_only_on_sdk_witness :
  exists e,
    is_Exception e = true /\
    snd (Conversation.execute_body broken_input offline (request "hello") [])
    = Raise e /\
    raised_by_sdk broken_input offline (request "hello") e.
Proof.
  apply (conversation_fails_only_on_sdk broken_input offline (request "hello") []
           broken_input_contract).
  reflexivity.
Defined.

Lemma response_not_empty (rt : Runtime) (input_json reply : string) :
  Conversation.generate_llm_response rt input_json = Ok reply ->
  reply <> EmptyString.
Proof.
  unfold Conversation.generate_llm_response.
  destruct (Conversation.generate_llm_response_body rt input_json) as [s|e] eqn:E.
  - intros H; injection H as <-; exact (body_text_not_empty _ _ _ E).
  - destruct (is_JSONDecodeError e).
    + intros H; injection H as <-; discriminate.
    + destruct (is_Exception e); [|discriminate].
      intros H; injection H as <-; discriminate.
Qed.

(** X24: when the conversation executor queues a completed task, that
    task carries exactly one artifact, named [response], whose only part
    is the text [generate_llm_response] gave for the request's input, and
    that text is never empty. *)
Theorem conversation_completed_artifact
        (sdk : Sdk) (rt : Runtime) (ctx : RequestContext) (q : list Event) :
  SdkContract sdk ->
  existsb is_completed (emitted q (fst (Conversation.execute sdk rt ctx q))) = true ->
  exists input reply done pre,
    get_user_input sdk ctx = Ok input /\
    Conversation.generate_llm_response rt input = Ok reply /\
    reply <> EmptyString /\
    Conversation.execute sdk rt ctx q = ((q ++ pre ++ [TaskEvent done])%list, Ok tt) /\
    state done = completed /\
    artifacts done = [new_artifact sdk [TextPart reply] "response"].
Proof.
  intros C Hc.
  destruct (completed_means_success _ _ _ _ q
              (fun q1 e Hb => conversation_body_raises _ _ _ _ _ _ C Hb) Hc)
    as [q1 Hb].
  destruct (conversation_body_succeeds _ _ _ _ _ C Hb)
    as (input & reply & done & Hi & Hp & (pre & -> & _ & Hst) & Ha).
  exists input, reply, done, pre; repeat split; try assumption.
  - exact (response_not_empty _ _ _ Hp).
  - unfold Conversation.execute, A2A.try_except; rewrite Hb; reflexivity.
Qed.

Lemma conversation_completed_artifact_witness :
  exists input reply done pre,
    get_user_input a2a_utils (request "Good morning") = Ok input /\
    Conversation.generate_llm_response offline input = Ok reply /\
    reply <> EmptyString /\
    Conversation.execute a2a_utils offline (request "Good morning") []
    = (([] ++ pre ++ [TaskEvent done])%list, Ok tt) /\
    state done = completed /\
    artifacts done = [new_artifact a2a_utils [TextPart reply] "response"].
Proof.
  apply (conversation_completed_artifact a2a_utils offline
           (request "Good morning") [] a2a_utils_contract).
  reflexivity.
Defined.

End ExecutorRunFacts.

(** ** More on the orchestrator *)

Module OrchestratorFacts.

Import PyStr Py Json Env Orchestrator Instances ClassifierFacts.

Definition text_of_part (p : ChunkPart) : string :=
  match p with
  | RootText t => t
  | PlainText t => t
  | NoText => EmptyString
  end.

(** The text of a chunk: the texts of its parts, in order. *)
Definition chunk_text (c : Chunk) : string :=
  match chunk_parts c with
  | Some ps => String.concat EmptyString (map text_of_part ps)
  | None => EmptyString
  end.

Definition success_dict (response_text : string) : json :=
  JObj [("status", JStr "success"); ("response_text", JStr response_text)].

Definition error_dict (reason : string) : json :=
  JObj [("status", JStr "error"); ("error", JStr reason)].

Lemma app_empty_r (s : string) : s ++ EmptyString = s.
Proof. induction s as [|c s IH]; simpl; [reflexivity | rewrite IH; reflexivity]. Qed.

Lemma concat_cons (x : string) (l : list string) :
  String.concat EmptyString (x :: l) = x ++ String.concat EmptyString l.
Proof.
  destruct l as [|y l]; simpl; [rewrite app_empty_r; reflexivity | reflexivity].
Qed.

Lemma fold_part_text (ps : list ChunkPart) (acc : string) :
  fold_left part_text ps acc
  = acc ++ String.concat EmptyString (map text_of_part ps).
Proof.
  revert acc; induction ps as [|p ps IH]; intros acc.
  - simpl; rewrite app_empty_r; reflexivity.
  - change (map text_of_part (p :: ps)) with (text_of_part p :: map text_of_part ps).
    rewrite concat_cons; simpl fold_left; rewrite IH.
    destruct p; simpl; rewrite ?app_assoc, ?app_empty_r; reflexivity.
Qed.

Lemma last_chunk (earlier : list Chunk) (final : Chunk) :
  fold_left (fun _ chunk => Some chunk) (earlier ++ [final])%list None = Some final.
Proof. rewrite fold_left_app; reflexivity. Qed.

Lemma call_on_chunks (net : Network) (url msg : string)
      (earlier : list Chunk) (final : Chunk) :
  net url msg = Ok (earlier ++ [final])%list ->
  call_a2a_agent net url msg = Ok (success_dict (chunk_text final)).
Proof.
  intros H; unfold call_a2a_agent; rewrite H; simpl.
  rewrite last_chunk; unfold success_dict, chunk_text.
  destruct (chunk_parts final) as [ps|]; [|reflexivity].
  rewrite fold_part_text; reflexivity.
Qed.

Lemma call_on_silence (net : Network) (url msg : string) :
  net url msg = Ok [] ->
  call_a2a_agent net url msg = Ok (error_dict "No response").
Proof. intros H; unfold call_a2a_agent; rewrite H; reflexivity. Qed.

Lemma call_on_error (net : Network) (url msg : string) (e : exn) :
  net url msg = Raise e -> is_Exception e = true ->
  call_a2a_agent net url msg = Ok (error_dict (exn_str e)).
Proof. intros H He; unfold call_a2a_agent; rewrite H; simpl; rewrite He; reflexivity. Qed.

Lemma chunks_end (l : list Chunk) :
  l = [] \/ exists earlier final, l = (earlier ++ [final])%list.
Proof.
  destruct l as [|c l]; [left; reflexivity | right].
  destruct (@exists_last _ (c :: l)) as (earlier & final & E); [discriminate|].
  exists earlier, final; exact E.
Qed.

Lemma call_never_raises_exception_aux (net : Network) (agent_url message_text : string) :
  match call_a2a_agent net agent_url message_text with
  | Ok result =>
      (exists response_text, result = success_dict response_text) \/
      (exists reason, result = error_dict reason)
  | Raise e => is_Exception e = false /\ net agent_url message_text = Raise e
  end.
Proof.
  destruct (net agent_url message_text) as [chunks|e] eqn:H.
  - destruct (chunks_end chunks) as [-> | (earlier & final & ->)].
    + rewrite (call_on_silence _ _ _ H); right; eauto.
    + rewrite (call_on_chunks _ _ _ _ _ H); left; eauto.
  - destruct (is_Exception e) eqn:He.
    + rewrite (call_on_error _ _ _ _ H He); right; eauto.
    + unfold call_a2a_agent; rewrite H; simpl; rewrite He.
      split; (assumption || reflexivity).
Qed.

(** X16: [call_a2a_agent] never raises an [Exception]: it returns a
    success dict with a response text or an error dict with a reason; only
    a signal of the network that is not an [Exception] passes through. *)
Theorem call_never_raises_exception (net : Network) (agent_url message_text : string) :
  match call_a2a_agent net agent_url message_text with
  | Ok result =>
      (exists response_text, result = success_dict response_text) \/
      (exists reason, result = error_dict reason)
  | Raise e => is_Exception e = false /\ net agent_url message_text = Raise e
  end.
Proof. exact (call_never_raises_exception_aux net agent_url message_text). Qed.

(** X17: only the last chunk of the response stream counts: the response
    text is the texts of its parts joined in order, parts without text
    left out, and the text of every earlier chunk is dropped. *)
Theorem last_chunk_is_the_response
        (net : Network) (agent_url message_text : string)
        (earlier : list Chunk) (final : Chunk) :
  net agent_url message_text = Ok (earlier ++ [final])%list ->
  call_a2a_agent net agent_url message_text = Ok (success_dict (chunk_text final)).
Proof. apply call_on_chunks. Qed.

Lemma last_chunk_is_the_response_witness :
  call_a2a_agent (streaming [RootText "All "; NoText; PlainText "done."])
    "http://memory-agent:8080" "hello"
  = Ok (success_dict "All done.").
Proof.
  apply (last_chunk_is_the_response
           (streaming [RootText "All "; NoText; PlainText "done."])
           "http://memory-agent:8080" "hello"
           [ {| chunk_parts := Some [RootText "working on it"] |} ]
           {| chunk_parts := Some [RootText "All "; NoText; PlainText "done."] |}).
  reflexivity.
Defined.












End OrchestratorFacts.

(** ** The onboarding screens *)

Module OnboardingFacts.

Import PyStr Json Onboarding.

(** The value found by following keys down nested dicts. *)
Fixpoint get_path (path : list string) (v : json) : option json :=
  match path with
  | [] => Some v
  | k :: rest =>
      match v with
      | JObj d =>
          match dict_lookup k d with
          | Some v' => get_path rest v'
          | None => None
          end
      | _ => None
      end
  end.

(** The strings of a value: the string itself, or the strings of a list. *)
Definition strings_of (v : option json) : list string :=
  match v with
  | Some (JStr s) => [s]
  | Some (JArr l) =>
      flat_map (fun x => match x with JStr s => [s] | _ => [] end) l
  | _ => []
  end.

Definition component_id (c : json) : list string :=
  strings_of (get_path ["id"] c).

(** The identifiers a component points to: the children of a column or a
    row, the content of a card, the label of a button. *)
Definition component_refs (c : json) : list string :=
  (strings_of (get_path ["component"; "Column"; "children"; "explicitList"] c)
   ++ strings_of (get_path ["component"; "Row"; "children"; "explicitList"] c)
   ++ strings_of (get_path ["component"; "Card"; "contentChild"] c)
   ++ strings_of (get_path ["component"; "Button"; "child"] c))%list.

Definition messages_of (screen : json) : list json :=
  match get_path ["a2ui_messages"] screen with
  | Some (JArr l) => l
  | _ => []
  end.

Definition components_of (screen : json) : list json :=
  flat_map (fun m =>
              match get_path ["surfaceUpdate"; "components"] m with
              | Some (JArr l) => l
              | _ => []
              end)
           (messages_of screen).

Definition roots_of (screen : json) : list string :=
  flat_map (fun m => strings_of (get_path ["beginRendering"; "root"] m))
           (messages_of screen).

Definition ids_of (screen : json) : list string :=
  flat_map component_id (components_of screen).

Definition refs_of (screen : json) : list string :=
  flat_map component_refs (components_of screen).

(** The components of a screen hang together as one tree under the root
    that is rendered: every component has an identifier of its own, every
    identifier pointed to is defined and pointed to once, the root is
    defined and never pointed to, and every other component is pointed to. *)
Record component_tree (screen : json) : Prop := mkComponentTree {
  every_component_named :
    List.length (ids_of screen) = List.length (components_of screen);
  ids_distinct : NoDup (ids_of screen);
  refs_distinct : NoDup (refs_of screen);
  refs_defined : incl (refs_of screen) (ids_of screen);
  one_root : roots_of screen = ["root"];
  root_defined : In "root" (ids_of screen);
  root_on_top : ~ In "root" (refs_of screen);
  no_orphan : forall i, In i (ids_of screen) -> i = "root" \/ In i (refs_of screen)
}.

Definition memb (x : string) (l : list string) : bool := existsb (String.eqb x) l.

Fixpoint nodupb (l : list string) : bool :=
  match l with
  | [] => true
  | x :: rest => negb (memb x rest) && nodupb rest
  end.

Definition rootsb (l : list string) : bool :=
  match l with
  | [r] => String.eqb r "root"
  | _ => false
  end.

Definition component_treeb (screen : json) : bool :=
  (List.length (ids_of screen) =? List.length (components_of screen))%nat
  && nodupb (ids_of screen)
  && nodupb (refs_of screen)
  && forallb (fun r => memb r (ids_of screen)) (refs_of screen)
  && rootsb (roots_of screen)
  && memb "root" (ids_of screen)
  && negb (memb "root" (refs_of screen))
  && forallb (fun i => String.eqb i "root" || memb i (refs_of screen)) (ids_of screen).

Lemma memb_In (x : string) (l : list string) : memb x l = true <-> In x l.
Proof.
  unfold memb; rewrite existsb_exists; split.
  - intros (y & Hin & E); apply String.eqb_eq in E; subst; exact Hin.
  - intros Hin; exists x; split; [exact Hin | apply String.eqb_refl].
Qed.

Lemma nodupb_NoDup (l : list string) : nodupb l = true -> NoDup l.
Proof.
  induction l as [|x l IH]; simpl; intros H; constructor.
  - apply andb_true_iff in H as [H _]; apply negb_true_iff in H.
    intros Hin; apply memb_In in Hin; congruence.
  - apply andb_true_iff in H as [_ H]; exact (IH H).
Qed.

Lemma component_treeb_sound (screen : json) :
  component_treeb screen = true -> component_tree screen.
Proof.
  unfold component_treeb; intros H.
  repeat (apply andb_true_iff in H as [H ?]).
  constructor.
  - apply Nat.eqb_eq; assumption.
  - apply nodupb_NoDup; assumption.
  - apply nodupb_NoDup; assumption.
  - intros r Hr; apply memb_In.
    match goal with
    | Hf : forallb (fun r => memb r _) _ = true |- _ =>
        rewrite forallb_forall in Hf; exact (Hf r Hr)
    end.
  - match goal with
    | Hr : rootsb _ = true |- _ =>
        unfold rootsb in Hr;
        destruct (roots_of screen) as [|r [|]]; try discriminate;
        apply String.eqb_eq in Hr; subst; reflexivity
    end.
  - apply memb_In; assumption.
  - match goal with
    | Hn : negb _ = true |- _ =>
        apply negb_true_iff in Hn; intros Hin; apply memb_In in Hin; congruence
    end.
  - intros i Hi.
    match goal with
    | Hf : forallb (fun i => String.eqb i "root" || _) _ = true |- _ =>
        rewrite forallb_forall in Hf; specialize (Hf i Hi);
        apply orb_true_iff in Hf as [Hf|Hf];
        [left; apply String.eqb_eq; exact Hf | right; apply memb_In; exact Hf]
    end.
Qed.

(** X22: every screen of the onboarding flow, for every user name, is one
    well-formed tree of components under the root it asks to render: no
    identifier is defined twice, none is dangling, none is an orphan. *)
Theorem screens_are_component_trees (user_name : string) :
  component_tree show_welcome_screen /\
  component_tree show_name_input_screen /\
  component_tree (show_interests_screen user_name) /\
  component_tree (show_completion_screen user_name) /\
  component_tree (show_dashboard user_name).
Proof.
  split; [|split; [|split; [|split]]];
    apply component_treeb_sound; vm_compute; reflexivity.
Qed.

(** The data paths a component is bound to: the text of a text field and
    the context values of a button's action. *)
Definition bound_paths (c : json) : list string :=
  (strings_of (get_path ["component"; "TextField"; "text"; "path"] c)
   ++ match get_path ["component"; "Button"; "action"; "context"] c with
      | Some (JArr l) => flat_map (fun e => strings_of (get_path ["value"; "path"] e)) l
      | _ => []
      end)%list.

(** The paths an entry of a data model update gives a value to: the entry
    itself and each key of its value map. *)
Definition entry_paths (entry : json) : list string :=
  flat_map
    (fun k =>
       ("/" ++ k)
       :: flat_map (fun sub => map (fun k2 => "/" ++ k ++ "/" ++ k2)
                                   (strings_of (get_path ["key"] sub)))
            match get_path ["valueMap"] entry with
            | Some (JArr l) => l
            | _ => []
            end)
    (strings_of (get_path ["key"] entry)).

Definition published_paths (screen : json) : list string :=
  flat_map (fun m =>
              match get_path ["dataModelUpdate"; "contents"] m with
              | Some (JArr l) => flat_map entry_paths l
              | _ => []
              end)
           (messages_of screen).

(** The kind of a message: the only key of its dict. *)
Definition message_kind (m : json) : list string :=
  match m with
  | JObj [(k, _)] => [k]
  | _ => []
  end.

Definition surfaces_of (screen : json) : list string :=
  flat_map (fun m =>
              (strings_of (get_path ["surfaceUpdate"; "surfaceId"] m)
               ++ strings_of (get_path ["dataModelUpdate"; "surfaceId"] m)
               ++ strings_of (get_path ["beginRendering"; "surfaceId"] m))%list)
           (messages_of screen).

(** A screen is delivered in order: the components first, the data model
    they are bound to next when there is one, the order to render last;
    every message is for the surface [main], every bound path has a value
    in the data model of the same screen, and the status is a success. *)
Record delivered_in_order (screen : json) : Prop := mkDelivered {
  status_success : get_path ["status"] screen = Some (JStr "success");
  kinds_in_order :
    flat_map message_kind (messages_of screen) = ["surfaceUpdate"; "beginRendering"] \/
    flat_map message_kind (messages_of screen)
    = ["surfaceUpdate"; "dataModelUpdate"; "beginRendering"];
  one_surface : Forall (fun s => s = "main") (surfaces_of screen);
  every_message_addressed :
    List.length (surfaces_of screen) = List.length (messages_of screen);
  bindings_published :
    incl (flat_map bound_paths (components_of screen)) (published_paths screen)
}.

Definition list_eqb (a b : list string) : bool :=
  if list_eq_dec string_dec a b then true else false.

Definition deliveredb (screen : json) : bool :=
  match get_path ["status"] screen with
  | Some (JStr s) => String.eqb s "success"
  | _ => false
  end
  && (list_eqb (flat_map message_kind (messages_of screen))
        ["surfaceUpdate"; "beginRendering"]
      || list_eqb (flat_map message_kind (messages_of screen))
           ["surfaceUpdate"; "dataModelUpdate"; "beginRendering"])
  && forallb (fun s => String.eqb s "main") (surfaces_of screen)
  && (List.length (surfaces_of screen) =? List.length (messages_of screen))%nat
  && forallb (fun p => memb p (published_paths screen))
       (flat_map bound_paths (components_of screen)).

Lemma list_eqb_eq (a b : list string) : list_eqb a b = true -> a = b.
Proof.
  unfold list_eqb; destruct (list_eq_dec string_dec a b); [trivial | discriminate].
Qed.

Lemma deliveredb_sound (screen : json) :
  deliveredb screen = true -> delivered_in_order screen.
Proof.
  unfold deliveredb; intros H.
  repeat (apply andb_true_iff in H as [H ?]).
  constructor.
  - destruct (get_path ["status"] screen) as [[]|]; try discriminate.
    apply String.eqb_eq in H; subst; reflexivity.
  - match goal with
    | Hk : (_ || _) = true |- _ =>
        apply orb_true_iff in Hk as [Hk|Hk]; apply list_eqb_eq in Hk; auto
    end.
  - apply Forall_forall; intros s Hs.
    match goal with
    | Hf : forallb (fun s => String.eqb s "main") _ = true |- _ =>
        rewrite forallb_forall in Hf; apply String.eqb_eq; exact (Hf s Hs)
    end.
  - apply Nat.eqb_eq; assumption.
  - intros p Hp; apply memb_In.
    match goal with
    | Hf : forallb (fun p => memb p _) _ = true |- _ =>
        rewrite forallb_forall in Hf; exact (Hf p Hp)
    end.
Qed.

(** X23: every screen of the onboarding flow, for every user name, is a
    success whose messages come in rendering order on the surface [main],
    and every data path a text field or a button is bound to is given a
    value by the data model update of the same screen. *)
Theorem screens_are_delivered_in_order (user_name : string) :
  delivered_in_order show_welcome_screen /\
  delivered_in_order show_name_input_screen /\
  delivered_in_order (show_interests_screen user_name) /\
  delivered_in_order (show_completion_screen user_name) /\
  delivered_in_order (show_dashboard user_name).
Proof.
  split; [|split; [|split; [|split]]];
    apply deliveredb_sound; vm_compute; reflexivity.
Qed.

(** The name screen binds its field and its button, the interests screen
    its five buttons; the other screens bind nothing. *)
Example bound_paths_of_the_screens :
  flat_map bound_paths (components_of show_name_input_screen)
  = ["/user/name"; "/user"] /\
  flat_map bound_paths (components_of (show_interests_screen "Joe"))
  = ["/interests/technology"; "/interests/design"; "/interests/business";
     "/interests/science"; "/interests"] /\
  flat_map bound_paths (components_of show_welcome_screen) = [].
Proof. split; [|split]; reflexivity. Qed.

End OnboardingFacts.

(** ** The Safety path end to end *)

Module SafetyFallbackFacts.

Import PyStr PyStrFacts Py Json A2A Env Safety Orchestrator Instances.
Import ExecutorFacts ExecutorRunFacts SafetyPathFacts ManagerFacts.

(** The task event [execute] queues first when the request has no task. *)
Definition created (ctx : RequestContext) (t : Task) : list Event :=
  match current_task ctx with
  | Some _ => []
  | None => [TaskEvent t]
  end.

Definition fallback_artifact (sdk : Sdk) : Artifact :=
  new_artifact sdk [TextPart (dumps no_output)] "safety_analysis_result".

Lemma check_safety_other_error (rt : Runtime) (net : Network)
      (user_text reply : string) (result : json) (e : exn) :
  call_a2a_agent net "http://safety-agent:8080" user_text = Ok result ->
  py_get result "response_text" (JStr "{}") = Ok (JStr reply) ->
  rt_loads rt reply = Raise e ->
  is_JSONDecodeError e = false ->
  check_safety rt net user_text = Raise e.
Proof.
  intros Hc Hg Hl He; unfold check_safety.
  rewrite Hc; simpl; rewrite Hg; simpl; rewrite Hl, He; reflexivity.
Qed.

Lemma execute_with_reply (sdk : Sdk) (adk : Adk) (ctx : RequestContext)
      (q : list Event) (t done : Task) (input reply : string) :
  task_in_hand sdk ctx t ->
  get_user_input sdk ctx = Ok input ->
  process_message adk "default_user" (context_id ctx) input = Ok reply ->
  completed_task sdk (id t) (task_context_id t)
    [new_artifact sdk [TextPart reply] "safety_analysis_result"] [message ctx]
  = Ok done ->
  Safety.execute sdk adk ctx q
  = ((q ++ created ctx t ++ [TaskEvent done])%list, Ok tt).
Proof.
  intros Ht Hi Hp Hd.
  unfold Safety.execute, A2A.try_except, Safety.execute_body, created.
  unfold A2A.bind, lift, ret, enqueue_event.
  destruct Ht as [Hc | [Hc Hn]]; rewrite Hc.
  - rewrite Hi, Hp, Hd; reflexivity.
  - rewrite Hn, Hi, Hp, Hd, <- List.app_assoc; reflexivity.
Qed.

(** C1 (as the code has it): the two internal failures of the Safety path
    are answered with a safe verdict.  When [json.loads] rejects the reply
    of the Safety agent with a [json.JSONDecodeError], [check_safety]
    returns the dict with [is_safe] true and the reason
    [Parse error, assuming safe]; any other exception of [json.loads] on
    the reply is raised by [check_safety].  When the run leaves no response
    text, [process_message] returns the JSON text of the dict with
    [is_safe] true and the reason [Agent provided no output], and
    [execute], its SDK helpers succeeding, queues a completed task whose
    one artifact carries that text, and no failed status.  An exception
    raised by the runner is raised again by [process_message]. *)
Theorem safety_failures_default_to_safe
        (rt : Runtime) (net : Network) (user_text reply : string)
        (result : json) (e : exn)
        (sdk : Sdk) (adk : Adk) (ctx : RequestContext) (q : list Event)
        (t done : Task) (input : string) (steps : list Step) :
  call_a2a_agent net "http://safety-agent:8080" user_text = Ok result ->
  py_get result "response_text" (JStr "{}") = Ok (JStr reply) ->
  rt_loads rt reply = Raise e ->
  SdkContract sdk ->
  task_in_hand sdk ctx t ->
  get_user_input sdk ctx = Ok input ->
  Py.try_except (get_session adk "default_user" (context_id ctx))
    (fun _ => create_session adk "safety_service" "default_user" (context_id ctx))
  = Ok tt ->
  run adk "default_user" (context_id ctx) input = Ok steps ->
  fold_left step_text steps (Some EmptyString) = None \/
  fold_left step_text steps (Some EmptyString) = Some EmptyString ->
  completed_task sdk (id t) (task_context_id t) [fallback_artifact sdk] [message ctx]
  = Ok done ->
  ((is_JSONDecodeError e = true ->
    check_safety rt net user_text = Ok parse_error_verdict) /\
   (is_JSONDecodeError e = false ->
    check_safety rt net user_text = Raise e) /\
   says_safe parse_error_verdict = true) /\
  (process_message adk "default_user" (context_id ctx) input = Ok (dumps no_output) /\
   says_safe no_output = true) /\
  (Safety.execute sdk adk ctx q
   = ((q ++ created ctx t ++ [TaskEvent done])%list, Ok tt) /\
   state done = completed /\
   artifacts done = [fallback_artifact sdk] /\
   existsb is_failed (emitted q (fst (Safety.execute sdk adk ctx q))) = false) /\
  (forall adk' e',
      Py.try_except (get_session adk' "default_user" (context_id ctx))
        (fun _ => create_session adk' "safety_service" "default_user" (context_id ctx))
      = Ok tt ->
      run adk' "default_user" (context_id ctx) input = Raise e' ->
      process_message adk' "default_user" (context_id ctx) input = Raise e').
Proof.
  intros Hc Hg Hl C Ht Hi Hs Hr Hn Hd.
  pose proof (process_message_no_text _ _ _ _ _ Hs Hr Hn) as Hp.
  pose proof (execute_with_reply sdk adk ctx q t done input _ Ht Hi Hp Hd) as He.
  destruct (completed_task_completed _ C _ _ _ _ _ Hd) as [Hst Harts].
  split; [|split; [|split]].
  - split; [|split].
    + intros Hj; exact (check_safety_parse_error _ _ _ _ _ _ Hc Hg Hl Hj).
    + intros Hj; exact (check_safety_other_error _ _ _ _ _ _ Hc Hg Hl Hj).
    + reflexivity.
  - split; [exact Hp | reflexivity].
  - split; [exact He | split; [exact Hst | split; [exact Harts|]]].
    rewrite He; simpl; rewrite emitted_app, existsb_app; simpl.
    unfold is_failed at 2; simpl; rewrite Hst; simpl; rewrite orb_false_r.
    unfold created; destruct Ht as [Hct | [Hct Hnew]]; rewrite Hct; [reflexivity|].
    simpl; unfold is_failed; simpl.
    rewrite (new_task_submitted _ C _ _ Hnew); reflexivity.
  - intros adk' e' Hs' Hr'; exact (process_message_reraises _ _ _ _ _ Hs' Hr').
Qed.

Lemma safety_failures_default_to_safe_witness :
  exists t done,
    ((is_JSONDecodeError (mkExn JSONDecodeError "Expecting value") = true ->
      check_safety offline (answering "Sorry, I cannot answer that.")
        "I fell and I am bleeding" = Ok parse_error_verdict) /\
     (is_JSONDecodeError (mkExn JSONDecodeError "Expecting value") = false ->
      check_safety offline (answering "Sorry, I cannot answer that.")
        "I fell and I am bleeding"
      = Raise (mkExn JSONDecodeError "Expecting value")) /\
     says_safe parse_error_verdict = true) /\
    (process_message silent_adk "default_user"
       (context_id (request "I fell and I am bleeding")) "I fell and I am bleeding"
     = Ok (dumps no_output) /\
     says_safe no_output = true) /\
    (Safety.execute a2a_utils silent_adk (request "I fell and I am bleeding") []
     = (([] ++ created (request "I fell and I am bleeding") t ++ [TaskEvent done])%list,
        Ok tt) /\
     state done = completed /\
     artifacts done = [fallback_artifact a2a_utils] /\
     existsb is_failed
       (emitted [] (fst (Safety.execute a2a_utils silent_adk
                           (request "I fell and I am bleeding") [])))
     = false) /\
    (forall adk' e',
        Py.try_except
          (get_session adk' "default_user"
             (context_id (request "I fell and I am bleeding")))
          (fun _ => create_session adk' "safety_service" "default_user"
                      (context_id (request "I fell and I am bleeding")))
        = Ok tt ->
        run adk' "default_user" (context_id (request "I fell and I am bleeding"))
          "I fell and I am bleeding" = Raise e' ->
        process_message adk' "default_user"
          (context_id (request "I fell and I am bleeding")) "I fell and I am bleeding"
        = Raise e').
Proof.
  eexists; eexists.
  apply (safety_failures_default_to_safe
           offline (answering "Sorry, I cannot answer that.")
           "I fell and I am bleeding" "Sorry, I cannot answer that."
           (JObj [("status", JStr "success");
                  ("response_text", JStr "Sorry, I cannot answer that.")])
           (mkExn JSONDecodeError "Expecting value")
           a2a_utils silent_adk (request "I fell and I am bleeding") []
           _ _ "I fell and I am bleeding"
           [ {| is_final_response := Some false;
                content := Some [ {| Safety.text := Some "thinking" |} ] |};
             {| is_final_response := Some true;
                content := Some [ {| Safety.text := None |} ] |} ]).
  - reflexivity.
  - reflexivity.
  - reflexivity.
  - exact a2a_utils_contract.
  - right; split; reflexivity.
  - reflexivity.
  - reflexivity.
  - reflexivity.
  - left; reflexivity.
  - reflexivity.
Defined.

End SafetyFallbackFacts.

(** ** The method of an emergency action *)

Module EngineFacts.

Import PyStr PyStrFacts Py Json A2A Env Safety Instances ManagerFacts.

Definition tommy : Contact :=
  {| name := "Tommy"; phone := "555-0199"; relation := "Grandson";
     preferred_method := "call" |}.

Definition dr_smith : Contact :=
  {| name := "Dr. Smith"; phone := "555-0900"; relation := "Doctor";
     preferred_method := "message" |}.

(** C7 (as the code has it): for every user and clock reading,
    [get_emergency_context] returns the same contacts in the same order,
    Tommy with the preferred method [call] first, so the preferred method of
    the first contact is [call] on every run.  The code has no rule that
    selects the method of an emergency action: the instruction of the agent
    asks the language model for [call] or [message], only the two tools are
    given to it, and [process_message] returns the final text of the model
    unchanged, whichever method it names. *)
Theorem method_is_left_to_the_model
        (now user_id : string) (environ : string -> option string) :
  emergency_contacts (get_emergency_context now user_id) = [tommy; dr_smith] /\
  option_map preferred_method
    (hd_error (emergency_contacts (get_emergency_context now user_id)))
  = Some "call" /\
  (forall now' user_id',
      emergency_contacts (get_emergency_context now' user_id')
      = emergency_contacts (get_emergency_context now user_id)) /\
  occurs_in "Method: 'call' or 'message' (based on contact preference)"
    (instruction (safety_agent environ)) /\
  tools (safety_agent environ) = ["analyze_safety"; "get_emergency_context"] /\
  (forall adk session_user session_id text before after parts c reply,
      Py.try_except (get_session adk session_user session_id)
        (fun _ => create_session adk "safety_service" session_user session_id)
      = Ok tt ->
      run adk session_user session_id text
      = Ok (before
              ++ {| is_final_response := Some true;
                    content := Some ({| Safety.text := Some (String c reply) |} :: parts) |}
              :: after)%list ->
      Forall not_final after ->
      process_message adk session_user session_id text = Ok (String c reply)).
Proof.
  split; [reflexivity|].
  split; [reflexivity|].
  split; [reflexivity|].
  split; [apply str_in_spec; vm_compute; reflexivity|].
  split; [reflexivity|].
  intros adk session_user session_id text before after parts c reply Hs Hr Ha.
  unfold process_message; rewrite Hs, Hr; simpl.
  rewrite (fold_last_final _ _ _ _ Ha); reflexivity.
Qed.

(** C7, counterexample: the user has confirmed, and the model answers with
    an execute_action assessment whose method is [message].  The manager
    and the executor hand that text over as it is, while the preferred
    method of the first contact is [call]. *)
Lemma model_may_choose_message :
  loads (dumps message_assessment) = Ok message_assessment /\
  dict_lookup "action"
    match message_assessment with JObj d => d | _ => [] end
  = Some (JStr "execute_action") /\
  dict_lookup "method"
    match message_assessment with JObj d => d | _ => [] end
  = Some (JStr "message") /\
  process_message (replying_adk (dumps message_assessment))
    "default_user" "context-1" "yes please help"
  = Ok (dumps message_assessment) /\
  map (fun ev => match ev with
                 | TaskEvent t => (state t, map artifact_parts (artifacts t))
                 | TaskStatusUpdateEvent _ _ st _ _ => (st, [])
                 end)
    (fst (Safety.execute a2a_utils (replying_adk (dumps message_assessment))
            (request "yes please help") []))
  = [(submitted, []); (completed, [[TextPart (dumps message_assessment)]])] /\
  option_map preferred_method
    (hd_error (emergency_contacts (get_emergency_context "10:30" "default_user")))
  = Some "call".
Proof.
  split; [|split; [|split; [|split; [|split]]]]; vm_compute; reflexivity.
Qed.

End EngineFacts.
